(** * crypto-stock-tracker: the ticker stream manager and the historical
      series loader

    A shallow embedding of the two React components of the dashboard:

    - [Tracker] embeds [CryptoTracker] of [src/app/page.tsx]: the aggregate
      ticker stream, the price mapping and the reconnect logic;
    - [Chart] embeds [CryptoChart] of [src/unnamed/part_000] (imported by the
      page as [@/components/crypto-chart]): the history fetch, the
      placeholder series and the live bar window.

    Conventions of the embedding.

    - A JavaScript number that holds a price, a percentage or a volume is a
      [number]: [NaN], an infinity, or a finite double, which is a rational
      (the two zeros are one).  Counters and epoch-millisecond timestamps
      are integers and are modelled by [nat] and [Z].
    - The operations on two finite numbers are exact: no result is rounded
      and none overflows.  The arithmetic of the placeholder series is also
      given with the rounding [fl] of every result: the identity gives
      exact arithmetic, round-to-nearest gives the doubles of the code.
      The shapes of the chart and the header are computed in exact
      arithmetic.  [Double] holds one line of the code in the binary64
      numbers of the kernel, to compare with.
    - [Number.parseFloat] is a builtin of the host, not code of the
      repository: the embedding is parameterised by it, as a function of the
      value it is given that returns a number or throws (a [TypeError], for
      a value that cannot be converted to a string, such as the object
      [{"toString": null}]).
    - [Date.now()] and [Math.random()] are inputs: a handler receives the
      clock reading [now], the placeholder generator receives the stream of
      draws.
    - A React state variable is a field of the component's [State]; a state
      setter is a record update.  A callback sees the bindings of the render
      in which it was created; that environment is explicit ([Closure] in
      [Tracker], [Request] in [Chart]).
    - The display label [time] of a bar is produced by the locale
      ([toLocaleTimeString]) and read by no logic; it is left out. *)

From Stdlib Require Import ZArith QArith Qabs Qminmax Lia Lqa.
From Stdlib Require PrimFloat SpecFloat FloatOps.
From stdpp Require Import gmap strings list sorting pretty.

Open Scope Z_scope.

(** ** JavaScript values *)

Module JS.

(** A JavaScript number as far as the program can tell two of them apart:
    [NaN], a finite double (a rational; the two zeros are one), or an
    infinity ([Infinity false] is [Infinity], [Infinity true] is
    [-Infinity]). *)
Inductive number : Type :=
| NaN
| Num (q : Q)
| Infinity (negative : bool).

(** The sign bit of a rational that is not zero. *)
Definition negative (q : Q) : bool := negb (Qle_bool 0 q).

(** [x !== y] on numbers. *)
Definition strict_neq (x y : number) : bool :=
  match x, y with
  | Num a, Num b => negb (Qeq_bool a b)
  | Infinity s, Infinity t => negb (Bool.eqb s t)
  | _, _ => true
  end.

(** [x > y] on numbers: false as soon as one side is [NaN]. *)
Definition gt (x y : number) : bool :=
  match x, y with
  | Num a, Num b => negb (Qle_bool a b)
  | Infinity false, Num _ => true
  | Infinity false, Infinity true => true
  | Num _, Infinity true => true
  | _, _ => false
  end.

(** Truthiness of a number: every number but [0] and [NaN]. *)
Definition truthy (x : number) : bool :=
  match x with
  | Num q => negb (Qeq_bool q 0)
  | Infinity _ => true
  | NaN => false
  end.

(** Truthiness of an optional number ([undefined] is falsy). *)
Definition truthy_opt (x : option number) : bool :=
  match x with
  | Some n => truthy n
  | None => false
  end.

(** [x + y], [x - y] and [x * y]: exact on two finite numbers (no rounding
    and no overflow; see [fl] in [Chart] for the rounding), and as IEEE 754
    has them on the infinities. *)
Definition add (x y : number) : number :=
  match x, y with
  | Num a, Num b => Num (a + b)
  | Infinity s, Num _ => Infinity s
  | Num _, Infinity s => Infinity s
  | Infinity s, Infinity t => if Bool.eqb s t then Infinity s else NaN
  | _, _ => NaN
  end.

Definition sub (x y : number) : number :=
  match x, y with
  | Num a, Num b => Num (a - b)
  | Infinity s, Num _ => Infinity s
  | Num _, Infinity t => Infinity (negb t)
  | Infinity s, Infinity t => if Bool.eqb s t then NaN else Infinity s
  | _, _ => NaN
  end.

Definition mul (x y : number) : number :=
  match x, y with
  | Num a, Num b => Num (a * b)
  | Infinity s, Num b =>
      if Qeq_bool b 0 then NaN else Infinity (xorb s (negative b))
  | Num a, Infinity t =>
      if Qeq_bool a 0 then NaN else Infinity (xorb (negative a) t)
  | Infinity s, Infinity t => Infinity (xorb s t)
  | _, _ => NaN
  end.

(** [Math.max(x, y)] and [Math.min(x, y)]: [NaN] as soon as one side is. *)
Definition Math_max (x y : number) : number :=
  match x, y with
  | Num a, Num b => Num (Qmax a b)
  | NaN, _ => NaN
  | _, NaN => NaN
  | Infinity false, _ => Infinity false
  | _, Infinity false => Infinity false
  | Infinity true, z => z
  | z, Infinity true => z
  end.

Definition Math_min (x y : number) : number :=
  match x, y with
  | Num a, Num b => Num (Qmin a b)
  | NaN, _ => NaN
  | _, NaN => NaN
  | Infinity true, _ => Infinity true
  | _, Infinity true => Infinity true
  | Infinity false, z => z
  | z, Infinity false => z
  end.

(** The value [JSON.parse] returns.  A number is a finite double or, for a
    literal beyond the doubles such as [1e999], an infinity. *)
#[warnings="-register-all"]
Inductive json : Type :=
| JNull
| JBool (b : bool)
| JNum (n : number)
| JStr (s : string)
| JArr (items : list json)
| JObj (members : list (string * json)).

(** [JSON.parse(event.data)]: a syntax error, or a value. *)
Inductive parsed : Type :=
| SyntaxError
| Parsed (j : json).

(** The completion of a block that may throw an [Error] with a message. *)
Inductive completion (A : Type) : Type :=
| Normal (a : A)
| Thrown (message : string).
Arguments Normal {A} a.
Arguments Thrown {A} message.

Definition bind {A B : Type} (m : completion A) (k : A -> completion B) : completion B :=
  match m with
  | Normal a => k a
  | Thrown message => Thrown message
  end.

(** [JSON.parse] inside a [try]. *)
Definition JSON_parse (p : parsed) : completion json :=
  match p with
  | SyntaxError => Thrown "SyntaxError"
  | Parsed j => Normal j
  end.

Fixpoint assoc (k : string) (members : list (string * json)) : option json :=
  match members with
  | [] => None
  | (k', v) :: rest => if String.eqb k k' then Some v else assoc k rest
  end.

(** [v.k] for one of the ticker keys ([s], [c], [P], [v], [o], [h], [l]):
    a [TypeError] on [null], the member on an object, [undefined] ([None])
    on every other value, none of which has such a property. *)
Definition prop (v : json) (k : string) : completion (option json) :=
  match v with
  | JNull => Thrown "TypeError"
  | JObj members => Normal (assoc k members)
  | _ => Normal None
  end.

Definition is_null (j : json) : bool :=
  match j with
  | JNull => true
  | _ => false
  end.

(** [v.k] of a value that is not [null], for one of the ticker keys. *)
Definition member (v : json) (k : string) : option json :=
  match v with
  | JObj members => assoc k members
  | _ => None
  end.

(** [c.symbol === v] for a string [c.symbol] and a property that was read. *)
Definition strict_eq_string (s : string) (v : option json) : bool :=
  match v with
  | Some (JStr s') => String.eqb s s'
  | _ => false
  end.

End JS.

#[global] Instance completion_bind : MBind JS.completion :=
  fun A B k m => JS.bind m k.

Ltac unfold_bind := unfold mbind, completion_bind, JS.bind in *.

(** ** The ticker stream manager ([src/app/page.tsx]) *)

Module Tracker.
Import JS.

Record TrackedAsset : Type := {
  symbol : string;
  name : string;
  shortName : string
}.

Definition CRYPTO_SYMBOLS : list TrackedAsset :=
  [ {| symbol := "BTCUSDT"; name := "Bitcoin"; shortName := "BTC" |};
    {| symbol := "ETHUSDT"; name := "Ethereum"; shortName := "ETH" |};
    {| symbol := "ADAUSDT"; name := "Cardano"; shortName := "ADA" |};
    {| symbol := "SOLUSDT"; name := "Solana"; shortName := "SOL" |};
    {| symbol := "DOGEUSDT"; name := "Dogecoin"; shortName := "DOGE" |} ].

Inductive Direction : Type := up | down | neutral.

(** [interface CryptoPrice]; its [symbol] and [name] are [cp_symbol] and
    [cp_name] here. *)
Record CryptoPrice : Type := {
  cp_symbol : string;
  cp_name : string;
  price : number;
  change24h : number;
  changePercent24h : number;
  lastUpdate : Z;
  previousPrice : option number;
  priceDirection : option Direction
}.

(** The state variables and refs of the component the stream manager uses.
    [reconnectTimeoutRef] is the delay of the pending reconnect timer,
    [priceAnimationRefs] the symbols with a pending 2000 ms timer. *)
Record State : Type := {
  prices : gmap string CryptoPrice;
  isConnected : bool;
  connectionAttempts : nat;
  isLoading : bool;
  reconnectTimeoutRef : option Z;
  priceAnimationRefs : gset string
}.

(** The first render: [useState({})], [useState(false)], [useState(0)],
    [useState(true)], [useRef(null)], [useRef({})]. *)
Definition initial : State :=
  {| prices := ∅; isConnected := false; connectionAttempts := 0%nat;
     isLoading := true; reconnectTimeoutRef := None; priceAnimationRefs := ∅ |}.

(** What [connectWebSocket] and the handlers it installs read of the render
    they were created in. *)
Record Closure : Type := {
  cl_prices : gmap string CryptoPrice;
  cl_connectionAttempts : nat
}.

(** The closure of a render whose state is [st]. *)
Definition render (st : State) : Closure :=
  {| cl_prices := prices st; cl_connectionAttempts := connectionAttempts st |}.

(** [connectWebSocket] is defined inside [useEffect(() => {...}, [])]
    (lines 41 to 152): with the empty dependency list the effect runs once,
    after the first render, and the reconnect timer calls that same
    function again.  The [const] bindings [prices] and [connectionAttempts]
    it refers to are those of the first render; a state setter makes a new
    render with new bindings and leaves these as they are.  Every handler
    of every socket therefore reads [prices = {}] and
    [connectionAttempts = 0]. *)
Definition mounted : Closure := render initial.

Definition set_prices (f : gmap string CryptoPrice -> gmap string CryptoPrice) (st : State) : State :=
  {| prices := f (prices st); isConnected := isConnected st;
     connectionAttempts := connectionAttempts st; isLoading := isLoading st;
     reconnectTimeoutRef := reconnectTimeoutRef st;
     priceAnimationRefs := priceAnimationRefs st |}.

Definition setIsConnected (b : bool) (st : State) : State :=
  {| prices := prices st; isConnected := b;
     connectionAttempts := connectionAttempts st; isLoading := isLoading st;
     reconnectTimeoutRef := reconnectTimeoutRef st;
     priceAnimationRefs := priceAnimationRefs st |}.

Definition setConnectionAttempts (f : nat -> nat) (st : State) : State :=
  {| prices := prices st; isConnected := isConnected st;
     connectionAttempts := f (connectionAttempts st); isLoading := isLoading st;
     reconnectTimeoutRef := reconnectTimeoutRef st;
     priceAnimationRefs := priceAnimationRefs st |}.

Definition setIsLoading (b : bool) (st : State) : State :=
  {| prices := prices st; isConnected := isConnected st;
     connectionAttempts := connectionAttempts st; isLoading := b;
     reconnectTimeoutRef := reconnectTimeoutRef st;
     priceAnimationRefs := priceAnimationRefs st |}.

Definition set_reconnectTimeoutRef (t : option Z) (st : State) : State :=
  {| prices := prices st; isConnected := isConnected st;
     connectionAttempts := connectionAttempts st; isLoading := isLoading st;
     reconnectTimeoutRef := t;
     priceAnimationRefs := priceAnimationRefs st |}.

Definition set_priceAnimationRefs (t : gset string) (st : State) : State :=
  {| prices := prices st; isConnected := isConnected st;
     connectionAttempts := connectionAttempts st; isLoading := isLoading st;
     reconnectTimeoutRef := reconnectTimeoutRef st;
     priceAnimationRefs := t |}.

(** [ws.onopen]. *)
Definition ws_onopen (st : State) : State :=
  setIsLoading false (setConnectionAttempts (fun _ => 0%nat) (setIsConnected true st)).

(** [Math.min(1000 * Math.pow(2, connectionAttempts), 30000)]. *)
Definition backoffDelay (connectionAttempts : nat) : Z :=
  Z.min (1000 * 2 ^ Z.of_nat connectionAttempts) 30000.

(** [Math.min(5000 * (connectionAttempts + 1), 30000)]. *)
Definition retryDelay (connectionAttempts : nat) : Z :=
  Z.min (5000 * (Z.of_nat connectionAttempts + 1)) 30000.

(** [ws.onclose] (lines 112 to 123): the flag goes down and the reconnect
    timer is armed with the delay computed from the [connectionAttempts]
    the handler reads. *)
Definition ws_onclose (env : Closure) (st : State) : State :=
  set_reconnectTimeoutRef (Some (backoffDelay (cl_connectionAttempts env)))
    (setIsConnected false st).

(** [ws.onerror]. *)
Definition ws_onerror (st : State) : State := setIsConnected false st.

(** [connectWebSocket]: the pending timer is cleared; when the [WebSocket]
    constructor throws ([created = false]) the [catch] arms a retry. *)
Definition connectWebSocket (env : Closure) (created : bool) (st : State) : State :=
  let st := set_reconnectTimeoutRef None st in
  if created then st
  else set_reconnectTimeoutRef (Some (retryDelay (cl_connectionAttempts env)))
         (setIsConnected false st).

(** The reconnect timer fires:
    [setConnectionAttempts((prev) => prev + 1); connectWebSocket()]. *)
Definition reconnect_timer (env : Closure) (created : bool) (st : State) : State :=
  connectWebSocket env created (setConnectionAttempts S st).

(** [handleReconnect]: the socket is closed (its [onclose] runs as an event
    of its own) and the counter is set to zero. *)
Definition handleReconnect (st : State) : State :=
  setConnectionAttempts (fun _ => 0%nat) st.

(** Every snapshot of a price mapping satisfies [P]. *)
Definition snapshots (P : CryptoPrice -> Prop) (m : gmap string CryptoPrice) : Prop :=
  forall sym p, m !! sym = Some p -> P p.

(** The two change fields of a snapshot are equal. *)
Definition same_change (p : CryptoPrice) : Prop := change24h p = changePercent24h p.

(** A snapshot that records no previous price and no movement. *)
Definition no_movement (p : CryptoPrice) : Prop :=
  priceDirection p = Some neutral /\ previousPrice p = None.

(** [{ ...prev[crypto.symbol], priceDirection: "neutral" }]. *)
Definition set_neutral (p : CryptoPrice) : CryptoPrice :=
  {| cp_symbol := cp_symbol p; cp_name := cp_name p; price := price p;
     change24h := change24h p; changePercent24h := changePercent24h p;
     lastUpdate := lastUpdate p; previousPrice := previousPrice p;
     priceDirection := Some neutral |}.

(** The 2000 ms timer of a symbol fires: the entry's direction goes back to
    neutral.  A timer is only armed for a symbol whose entry was read from
    [prices], so the entry exists. *)
Definition animation_timer (sym : string) (st : State) : State :=
  if decide (sym ∈ priceAnimationRefs st) then
    set_priceAnimationRefs (priceAnimationRefs st ∖ {[sym]})
      (set_prices (alter set_neutral sym) st)
  else st.

Section WithBuiltins.

(** [Number.parseFloat] applied to a property that was read ([None] is
    [undefined]): the number it returns, or the error it throws. *)
Variable parseFloat : option json -> completion number.

(** [CRYPTO_SYMBOLS.find((c) => c.symbol === ticker.s)]. *)
Definition find_crypto (s : option json) : option TrackedAsset :=
  List.find (fun c => strict_eq_string (symbol c) s) CRYPTO_SYMBOLS.

(** The direction computed against the entry the handler reads. *)
Definition direction (previousData : option CryptoPrice) (currentPrice : number) : Direction :=
  match previousData with
  | Some pd =>
      if strict_neq (price pd) currentPrice
      then (if gt currentPrice (price pd) then up else down)
      else neutral
  | None => neutral
  end.

(** Whether the handler arms the 2000 ms timer for the symbol. *)
Definition arms_timer (previousData : option CryptoPrice) (currentPrice : number) : bool :=
  match previousData with
  | Some pd => strict_neq (price pd) currentPrice
  | None => false
  end.

(** The object stored in [newPrices[crypto.symbol]], from the three
    readings of [Number.parseFloat] (lines 67, 95 and 96). *)
Definition snapshot (env : Closure) (now : Z) (crypto : TrackedAsset)
    (currentPrice change24h changePercent24h : number) : CryptoPrice :=
  let previousData := cl_prices env !! symbol crypto in
  {| cp_symbol := shortName crypto;
     cp_name := name crypto;
     price := currentPrice;
     change24h := change24h;
     changePercent24h := changePercent24h;
     lastUpdate := now;
     previousPrice := price <$> previousData;
     priceDirection := Some (direction previousData currentPrice) |}.

(** The body of [data.forEach((ticker) => ...)] for one ticker: the timers
    after it, and [newPrices] after it or the error that was thrown.  The
    timer of the ticker is armed before [ticker.P] is read, so it stays
    armed when that reading throws. *)
Definition each_ticker (env : Closure) (now : Z) (ticker : json)
    (acc : gset string * gmap string CryptoPrice)
  : gset string * completion (gmap string CryptoPrice) :=
  match prop ticker "s" with
  | Thrown message => (fst acc, Thrown message)
  | Normal s =>
      match find_crypto s with
      | Some crypto =>
          match c ← prop ticker "c"; parseFloat c with
          | Thrown message => (fst acc, Thrown message)
          | Normal currentPrice =>
              let previousData := cl_prices env !! symbol crypto in
              let timers :=
                if arms_timer previousData currentPrice
                then {[symbol crypto]} ∪ fst acc else fst acc in
              (timers,
               (P ← prop ticker "P";
                change24h ← parseFloat P;
                changePercent24h ← parseFloat P;
                Normal (<[symbol crypto :=
                            snapshot env now crypto currentPrice change24h changePercent24h]>
                          (snd acc))))
          end
      | None => (fst acc, Normal (snd acc))
      end
  end.

(** [data.forEach] over an array; the timers armed before a throw stay
    armed, so they are returned next to the completion. *)
Fixpoint forEach (env : Closure) (now : Z) (data : list json)
    (acc : gset string * gmap string CryptoPrice)
  : gset string * completion (gmap string CryptoPrice) :=
  match data with
  | [] => (fst acc, Normal (snd acc))
  | ticker :: rest =>
      match each_ticker env now ticker acc with
      | (timers, Normal newPrices) => forEach env now rest (timers, newPrices)
      | (timers, Thrown message) => (timers, Thrown message)
      end
  end.

(** [ws.onmessage] of the aggregate stream.  [data.forEach] is a [TypeError]
    unless [data] is an array.  The [catch] only logs.  One clock reading
    [now] stands for the [Date.now()] of every ticker of the message. *)
Definition ws_onmessage (env : Closure) (now : Z) (event_data : parsed) (st : State) : State :=
  match JSON_parse event_data with
  | Normal (JArr data) =>
      let '(timers, result) := forEach env now data (priceAnimationRefs st, ∅) in
      let st := set_priceAnimationRefs timers st in
      match result with
      | Normal newPrices =>
          if decide (newPrices = ∅) then st
          else set_prices (fun prev => newPrices ∪ prev) st
      | Thrown _ => st
      end
  | _ => st
  end.

(** [Number.parseFloat] throws on this property. *)
Definition unreadable (v : option json) : bool :=
  match parseFloat v with
  | Normal _ => false
  | Thrown _ => true
  end.

(** Tickers on which the body of the [forEach] throws: [null] (reading
    [ticker.s] fails), and a ticker of a tracked symbol whose [c] or [P]
    [Number.parseFloat] throws on. *)
Definition ticker_throws (ticker : json) : bool :=
  match ticker with
  | JNull => true
  | _ =>
      match find_crypto (member ticker "s") with
      | Some _ => unreadable (member ticker "c") || unreadable (member ticker "P")
      | None => false
      end
  end.

(** Payloads on which the [try] block of [ws.onmessage] throws: text that
    is not JSON, a value that is not an array (it has no [forEach]), and an
    array with a ticker on which the body throws. *)
Definition discarded (event_data : parsed) : bool :=
  match event_data with
  | SyntaxError => true
  | Parsed (JArr data) => existsb ticker_throws data
  | Parsed _ => true
  end.

(** The events of the component.  [Mount] is the effect calling
    [connectWebSocket] after the first render; [created] tells whether the
    [WebSocket] constructor returned. *)
Inductive Event : Type :=
| Mount (created : bool)
| Open
| Message (now : Z) (event_data : parsed)
| Close
| Error
| ReconnectTimer (created : bool)
| HandleReconnect
| AnimationTimer (sym : string).

Definition step (env : Closure) (st : State) (ev : Event) : State :=
  match ev with
  | Mount created => connectWebSocket env created st
  | Open => ws_onopen st
  | Message now event_data => ws_onmessage env now event_data st
  | Close => ws_onclose env st
  | Error => ws_onerror st
  | ReconnectTimer created => reconnect_timer env created st
  | HandleReconnect => handleReconnect st
  | AnimationTimer sym => animation_timer sym st
  end.

(** The component after a sequence of events, from the first render. *)
Definition run (evs : list Event) : State :=
  fold_left (step mounted) evs initial.

End WithBuiltins.

End Tracker.

(** ** The historical series loader ([src/unnamed/part_000]) *)

Module Chart.
Import JS.

(** [interface ChartData], without the display label. *)
Record ChartData : Type := {
  timestamp : Z;
  price : number;
  volume : number;
  open : number;
  high : number;
  low : number;
  close : number
}.

(** The state variables of the component the loader uses. *)
Record State : Type := {
  chartData : list ChartData;
  loading : bool;
  timeframe : string;
  error : option string
}.

(** The first render: [useState([])], [useState(true)], [useState("1h")],
    [useState(null)]. *)
Definition initial : State :=
  {| chartData := []; loading := true; timeframe := "1h"; error := None |}.

Definition setChartData (f : list ChartData -> list ChartData) (st : State) : State :=
  {| chartData := f (chartData st); loading := loading st;
     timeframe := timeframe st; error := error st |}.

Definition setLoading (b : bool) (st : State) : State :=
  {| chartData := chartData st; loading := b;
     timeframe := timeframe st; error := error st |}.

Definition setTimeframe (tf : string) (st : State) : State :=
  {| chartData := chartData st; loading := loading st;
     timeframe := tf; error := error st |}.

Definition setError (e : option string) (st : State) : State :=
  {| chartData := chartData st; loading := loading st;
     timeframe := timeframe st; error := e |}.

(** What one call of [fetchHistoricalData] reads of the render it was
    created in: the props [symbol] and [currentPrice] and the state
    variable [timeframe]. *)
Record Request : Type := {
  r_symbol : string;
  r_timeframe : string;
  r_currentPrice : option number
}.

Record Config : Type := { interval : string; limit : nat }.

Definition intervalMap (key : string) : option Config :=
  if String.eqb key "1h" then Some {| interval := "1m"; limit := 60 |}
  else if String.eqb key "24h" then Some {| interval := "5m"; limit := 288 |}
  else if String.eqb key "7d" then Some {| interval := "1h"; limit := 168 |}
  else if String.eqb key "30d" then Some {| interval := "4h"; limit := 180 |}
  else None.

(** [intervalMap[timeframe] || intervalMap["1h"]]. *)
Definition config (timeframe : string) : Config :=
  default {| interval := "1m"; limit := 60 |} (intervalMap timeframe).

Definition url (req : Request) : string :=
  "https://api.binance.com/api/v3/klines?symbol=" +:+ r_symbol req
  +:+ "&interval=" +:+ interval (config (r_timeframe req))
  +:+ "&limit=" +:+ pretty (limit (config (r_timeframe req))).

(** One row of the response as the code reads it ([item: any[]]), for a
    row that is an array whose first entry is an integer, as the endpoint
    sends them: [item[0]] is the open time in epoch milliseconds, [item[1]]
    to [item[5]] are open, high, low, close and volume, whatever JSON value
    they are ([None] when the row is too short). *)
Record Kline : Type := {
  item0 : Z;
  item1 : option json;
  item2 : option json;
  item3 : option json;
  item4 : option json;
  item5 : option json
}.

(** What the [try] block gets from the network.  [Rejected message]: an
    [Error] with this message is thrown by [fetch], by [response.json()],
    or while a row that is not of the shape of [Kline] is read (a [null]
    row, a first entry that [new Date] cannot convert); [NotOk]: the
    response is not [ok]; [NotArray]: the body is JSON but not an array;
    [Klines]: the body is an array of rows of the shape of [Kline].  A
    body with a row of another shape that is read without a throw (a first
    entry that is a string, say) is not covered. *)
Inductive Response : Type :=
| Rejected (message : string)
| NotOk (status : Z)
| NotArray
| Klines (data : list Kline).

(** The timeframes of the selector. *)
Definition timeframes : list string := ["1h"; "24h"; "7d"; "30d"].

(** [timeframe === "1h" ? 60 : timeframe === "24h" ? 288 : 168]. *)
Definition maxPoints (timeframe : string) : nat :=
  if String.eqb timeframe "1h" then 60%nat
  else if String.eqb timeframe "24h" then 288%nat
  else 168%nat.

(** [prev.slice(-n)]: the last [n] elements; [slice(-0)] is [slice(0)]. *)
Definition slice_last {A : Type} (n : nat) (prev : list A) : list A :=
  if Nat.eqb n 0 then prev else drop (length prev - n) prev.

(** Exact arithmetic: no result is rounded. *)
Definition exact : Q -> Q := fun q => q.

(** [fetchHistoricalData] up to its first [await]. *)
Definition fetchHistoricalData_start (st : State) : State :=
  setError None (setLoading true st).

Section WithBuiltins.

(** The rounding of the arithmetic: what the result of an operation, or a
    decimal literal of the code, is stored as.  It is [exact] in exact
    arithmetic and round-to-nearest in the doubles of the code, as long as
    no result overflows. *)
Variable fl : Q -> Q.

Variable parseFloat : option json -> completion number.

Definition rounded (n : number) : number :=
  match n with
  | Num q => Num (fl q)
  | n => n
  end.

(** [x + y], [x - y] and [x * y], the result rounded. *)
Definition fl_add (x y : number) : number := rounded (add x y).
Definition fl_sub (x y : number) : number := rounded (sub x y).
Definition fl_mul (x y : number) : number := rounded (mul x y).

(** The body of the placeholder loop for the iterations [i = n - 1] down to
    [0]; [k] counts the calls of [Math.random] made so far.  The literals
    [0.5], [1] and [1000000] are doubles, [0.02] and [0.01] are rounded. *)
Fixpoint sample_loop (random : nat -> Q) (now : Z) (n k : nat) (price : number)
  : list ChartData :=
  match n with
  | O => []
  | S i =>
      let timestamp := now - Z.of_nat i * 60000 in
      let variation :=
        fl_mul (fl_sub (Num (random k)) (Num 0.5)) (rounded (Num 0.02)) in
      let open := price in
      let close := fl_mul price (fl_add (Num 1) variation) in
      let high :=
        fl_mul (Math_max open close)
               (fl_add (Num 1) (fl_mul (Num (random (k + 1)%nat)) (rounded (Num 0.01)))) in
      let low :=
        fl_mul (Math_min open close)
               (fl_sub (Num 1) (fl_mul (Num (random (k + 2)%nat)) (rounded (Num 0.01)))) in
      {| timestamp := timestamp; price := close; open := open; high := high;
         low := low; close := close;
         volume := fl_mul (Num (random (k + 3)%nat)) (Num 1000000) |}
      :: sample_loop random now i (k + 4) close
  end.

(** [for (let i = 59; i >= 0; i--)] from [price = currentPrice]. *)
Definition sampleData (random : nat -> Q) (now : Z) (currentPrice : number) : list ChartData :=
  sample_loop random now 60 0 currentPrice.

(** The object a row is mapped to, or the error [Number.parseFloat] throws
    on one of its entries. *)
Definition format (item : Kline) : completion ChartData :=
  price ← parseFloat (item4 item);
  volume ← parseFloat (item5 item);
  open ← parseFloat (item1 item);
  high ← parseFloat (item2 item);
  low ← parseFloat (item3 item);
  close ← parseFloat (item4 item);
  Normal {| timestamp := item0 item; price := price; volume := volume;
            open := open; high := high; low := low; close := close |}.

(** [data.map(format)]: the rows in their order, up to the first throw. *)
Fixpoint map_format (data : list Kline) : completion (list ChartData) :=
  match data with
  | [] => Normal []
  | item :: rest =>
      d ← format item;
      bars ← map_format rest;
      Normal (d :: bars)
  end.

(** The [try] block after the [await]s: [formattedData], or the [Error]
    that is thrown. *)
Definition formattedData (response : Response) : completion (list ChartData) :=
  match response with
  | Rejected message => Thrown message
  | NotOk status => Thrown ("HTTP error! status: " +:+ pretty status)
  | NotArray => Thrown "No data received from API"
  | Klines [] => Thrown "No data received from API"
  | Klines data => map_format data
  end.

(** The [catch] block. *)
Definition catch (req : Request) (now : Z) (random : nat -> Q) (message : string)
    (st : State) : State :=
  let st := setError (Some ("Failed to load chart data: " +:+ message)) st in
  match r_currentPrice req with
  | Some currentPrice =>
      if truthy currentPrice
      then setError None
             (setChartData (fun _ => sampleData random now currentPrice) st)
      else st
  | None => st
  end.

(** [fetchHistoricalData] from the moment the response is there. *)
Definition fetchHistoricalData_settle (req : Request) (now : Z) (random : nat -> Q)
    (response : Response) (st : State) : State :=
  setLoading false
    match formattedData response with
    | Normal data => setChartData (fun _ => data) st
    | Thrown message => catch req now random message st
    end.

(** [newDataPoint] of the live handler, or the error that reading a field
    of [null] or [Number.parseFloat] throws. *)
Definition newDataPoint (now : Z) (ticker : json) : completion ChartData :=
  c ← prop ticker "c";
  newPrice ← parseFloat c;
  v ← prop ticker "v";
  volume ← parseFloat v;
  o ← prop ticker "o";
  open ← parseFloat o;
  h ← prop ticker "h";
  high ← parseFloat h;
  l ← prop ticker "l";
  low ← parseFloat l;
  Normal {| timestamp := now; price := newPrice; volume := volume;
            open := open; high := high; low := low; close := newPrice |}.

(** [ws.onmessage] of the per-symbol stream, installed by the effect that
    depends on [[symbol, timeframe]]: it reads the current [timeframe].  The
    [catch] only logs. *)
Definition ws_onmessage (now : Z) (event_data : parsed) (st : State) : State :=
  match ticker ← JSON_parse event_data; newDataPoint now ticker with
  | Normal point =>
      setChartData
        (fun prev => slice_last (maxPoints (timeframe st) - 1) prev ++ [point]) st
  | Thrown _ => st
  end.

(** [Number.parseFloat] throws on this property. *)
Definition unreadable (v : option json) : bool :=
  match parseFloat v with
  | Normal _ => false
  | Thrown _ => true
  end.

(** Payloads on which the [try] block of [ws.onmessage] throws: text that
    is not JSON, [null] (reading [ticker.c] fails), and a value one of
    whose five fields [Number.parseFloat] throws on. *)
Definition discarded (event_data : parsed) : bool :=
  match event_data with
  | SyntaxError => true
  | Parsed JNull => true
  | Parsed ticker =>
      existsb (fun k => unreadable (member ticker k)) ["c"; "v"; "o"; "h"; "l"]
  end.

(** Ascending by timestamp (equal timestamps allowed). *)
Definition ascending (bars : list ChartData) : Prop :=
  StronglySorted Z.le (timestamp <$> bars).

(** The capacity of a timeframe: the bar count [intervalMap] maps it to. *)
Definition capacity (timeframe : string) : nat := limit (config timeframe).



(** Live messages, each with the clock reading at its arrival. *)
Definition live (messages : list (Z * parsed)) (st : State) : State :=
  fold_left (fun st m => ws_onmessage (fst m) (snd m) st) messages st.

End WithBuiltins.

End Chart.

(** ** One step of the placeholder series in binary64 *)

Module Double.
Import PrimFloat SpecFloat FloatOps.

(** [price * (1 + variation)] with
    [variation = (Math.random() - 0.5) * 0.02] (lines 107 and 109), in the
    doubles of the code. *)
#[warnings="-inexact-float"]
Definition close (price random : float) : float :=
  (price * (1 + (random - 0.5) * 0.02))%float.



End Double.

(** ** Concrete inputs for the examples *)

Module Examples.
Import JS.

(** [Number.parseFloat] on the values the examples feed it: a number reads
    as itself; [undefined] ([None]), [null], the booleans and the
    objects that inherit [toString] read as [NaN]; an object with a member
    [toString] (which is not a function, coming from [JSON.parse]) cannot
    be converted to a string, and the call throws a [TypeError].  The
    examples hold their numeric fields as JSON numbers and never ask for
    the reading of a string or of an array. *)
Definition parseFloat (v : option json) : completion number :=
  match v with
  | Some (JNum n) => Normal n
  | Some (JObj members) =>
      match assoc "toString" members with
      | Some _ => Thrown "Cannot convert object to primitive value"
      | None => Normal NaN
      end
  | _ => Normal NaN
  end.

(** The object [{"toString": null}]. *)
Definition unconvertible : json := JObj [("toString", JNull)].

(** [Math.random] drawing 0, 1/4, 1/2 and 3/4 in turn. *)
Definition quarters : nat -> Q := fun i => (inject_Z (Z.of_nat (i mod 4)) / 4)%Q.


(** An aggregate message with one ticker of BTCUSDT. *)
Definition btc (c : Q) : parsed :=
  Parsed (JArr [JObj [("s", JStr "BTCUSDT"); ("c", JNum (Num c));
                      ("P", JNum (Num 1.5))]]).

(** [n] closes, each followed by the reconnect timer, without an open. *)
Fixpoint closes (n : nat) : list Tracker.Event :=
  match n with
  | O => []
  | S n => Tracker.Close :: Tracker.ReconnectTimer true :: closes n
  end.

(** A tracker that was mounted and then closed and reconnected [n] times. *)
Definition retries (n : nat) : list Tracker.Event := Tracker.Mount true :: closes n.

(** A tracker that was mounted, connected, and received [btc 100] at clock
    reading 5. *)
Definition btc_at_100 : list Tracker.Event :=
  [Tracker.Mount true; Tracker.Open; Tracker.Message 5 (btc 100)].

(** The snapshot [btc 100] stores at clock reading 5. *)
Definition btc_snapshot : Tracker.CryptoPrice :=
  {| Tracker.cp_symbol := "BTC"; Tracker.cp_name := "Bitcoin";
     Tracker.price := Num 100; Tracker.change24h := Num 1.5;
     Tracker.changePercent24h := Num 1.5; Tracker.lastUpdate := 5;
     Tracker.previousPrice := None;
     Tracker.priceDirection := Some Tracker.neutral |}.

(** A kline row and a live bar with every price at [p]. *)
Definition kline (t : Z) (p : Q) : Chart.Kline :=
  {| Chart.item0 := t;
     Chart.item1 := Some (JNum (Num p)); Chart.item2 := Some (JNum (Num p));
     Chart.item3 := Some (JNum (Num p)); Chart.item4 := Some (JNum (Num p));
     Chart.item5 := Some (JNum (Num 1)) |}.

Definition bar (t : Z) (p : Q) : Chart.ChartData :=
  {| Chart.timestamp := t; Chart.price := Num p; Chart.volume := Num 1;
     Chart.open := Num p; Chart.high := Num p; Chart.low := Num p;
     Chart.close := Num p |}.

(** A per-symbol ticker at price [p]. *)
Definition ticker (p : Q) : json :=
  JObj [("c", JNum (Num p)); ("v", JNum (Num 1)); ("o", JNum (Num p));
        ("h", JNum (Num p)); ("l", JNum (Num p))].

Definition tick (p : Q) : parsed := Parsed (ticker p).

(** The bar appended for the payload [{}], read at clock reading [t]. *)
Definition nan_bar (t : Z) : Chart.ChartData :=
  {| Chart.timestamp := t; Chart.price := NaN; Chart.volume := NaN;
     Chart.open := NaN; Chart.high := NaN; Chart.low := NaN; Chart.close := NaN |}.

(** The requests of a chart for a symbol, in the timeframe "1h". *)
Definition request (symbol : string) (currentPrice : option number) : Chart.Request :=
  {| Chart.r_symbol := symbol; Chart.r_timeframe := "1h";
     Chart.r_currentPrice := currentPrice |}.

(** A chart on "1h" that holds [bars]. *)
Definition chart (bars : list Chart.ChartData) : Chart.State :=
  {| Chart.chartData := bars; Chart.loading := false; Chart.timeframe := "1h";
     Chart.error := None |}.

(** A chart on "30d" that holds [n] bars. *)
Definition month (n : nat) : Chart.State :=
  {| Chart.chartData := replicate n (bar 1000 100); Chart.loading := false;
     Chart.timeframe := "30d"; Chart.error := None |}.

(** Two live messages, at clock readings 3000 and 4000, and the clock
    reading 2500. *)
Definition two_ticks : list (Z * parsed) := [(3000, tick 102); (4000, tick 103)].
Definition t2500 : Z := 2500.

(** [Math.random] drawing 1/2 every time. *)
Definition half : nat -> Q := fun _ => 0.5%Q.

End Examples.

(** ** Properties of the ticker stream manager *)

Module TrackerProps.
Import JS Tracker.

Lemma mounted_attempts : cl_connectionAttempts mounted = 0%nat.
Proof. reflexivity. Qed.

Lemma mounted_prices (sym : string) : cl_prices mounted !! sym = None.
Proof. apply lookup_empty. Qed.

(** The formula of [ws.onclose], as a function of the counter it reads. *)
Lemma backoffDelay_table :
  map backoffDelay [0; 1; 2; 3; 4; 5]%nat = [1000; 2000; 4000; 8000; 16000; 30000].
Proof. reflexivity. Qed.

Lemma backoffDelay_capped (n : nat) : backoffDelay n <= 30000.
Proof. unfold backoffDelay. apply Z.le_min_r. Qed.

Lemma backoffDelay_saturates (n : nat) : (5 <= n)%nat -> backoffDelay n = 30000.
Proof.
  intros Hn. unfold backoffDelay. apply Z.min_r.
  assert (2 ^ 5 <= 2 ^ Z.of_nat n) by (apply Z.pow_le_mono_r; lia).
  lia.
Qed.

(** The delay [ws.onclose] arms, whatever the state of the counter. *)
Lemma onclose_delay (st : State) :
  reconnectTimeoutRef (ws_onclose mounted st) = Some 1000.
Proof. reflexivity. Qed.

(** C2: the state counter is 1 after one close and one reconnect, the
    stream closes again, and the timer is armed with 1000 ms, where the
    formula at 1 gives 2000 ms: the handler reads the counter of the first
    render. *)
Lemma C2_delay_after_one_retry :
  let st := run Examples.parseFloat (Examples.retries 1) in
  connectionAttempts st = 1%nat
  /\ reconnectTimeoutRef (step Examples.parseFloat mounted st Close) = Some 1000
  /\ backoffDelay (connectionAttempts st) = 2000.
Proof. vm_compute. auto. Qed.

Section WithBuiltins.

Variable parseFloat : option json -> completion number.

(** With the closure of the first render no ticker has a previous entry. *)
Lemma mounted_direction (sym : string) (currentPrice : number) :
  direction (cl_prices mounted !! sym) currentPrice = neutral
  /\ arms_timer (cl_prices mounted !! sym) currentPrice = false.
Proof. rewrite mounted_prices. split; reflexivity. Qed.

(** What [direction] computes from the entry it is given. *)
Lemma direction_of_numbers (pd : CryptoPrice) (a b : Q) :
  price pd = Num a ->
  (direction (Some pd) (Num b) = up <-> (a < b)%Q)
  /\ (direction (Some pd) (Num b) = down <-> (b < a)%Q)
  /\ (direction (Some pd) (Num b) = neutral <-> (a == b)%Q).
Proof.
  intros Hp. unfold direction, strict_neq, gt. rewrite Hp.
  destruct (Qeq_bool a b) eqn:Heq; simpl.
  - apply Qeq_bool_iff in Heq.
    repeat split; intros H; first [discriminate | reflexivity | lra].
  - apply Qeq_bool_neq in Heq.
    destruct (Qle_bool b a) eqn:Hle; simpl.
    + apply Qle_bool_iff in Hle.
      repeat split; intros H;
        first [discriminate | reflexivity | lra | exfalso; lra ].
    + assert (~ (b <= a)%Q) as Hn
        by (intros H; apply Qle_bool_iff in H; congruence).
      repeat split; intros H;
        first [discriminate | reflexivity | lra | exfalso; lra ].
Qed.

(** *** Frame: what the message handler and the timers leave alone *)

Lemma set_priceAnimationRefs_id (st : State) :
  set_priceAnimationRefs (priceAnimationRefs st) st = st.
Proof. destruct st; reflexivity. Qed.

Lemma ws_onmessage_frame (env : Closure) (now : Z) (d : parsed) (st : State) :
  let st' := ws_onmessage parseFloat env now d st in
  isConnected st' = isConnected st
  /\ connectionAttempts st' = connectionAttempts st
  /\ isLoading st' = isLoading st
  /\ reconnectTimeoutRef st' = reconnectTimeoutRef st.
Proof.
  unfold ws_onmessage. destruct d as [|[]]; simpl; auto.
  destruct (forEach _ _ _ _ _) as [timers [newPrices|message]]; simpl; auto.
  case_decide; simpl; auto.
Qed.

Lemma animation_timer_frame (sym : string) (st : State) :
  connectionAttempts (animation_timer sym st) = connectionAttempts st.
Proof. unfold animation_timer. case_decide; reflexivity. Qed.

(** Every event but an open and a manual reconnect leaves the counter
    where it is or increments it. *)
Lemma step_attempts_mono (env : Closure) (st : State) (ev : Event) :
  ev <> Open -> ev <> HandleReconnect ->
  (connectionAttempts st <= connectionAttempts (step parseFloat env st ev))%nat.
Proof.
  intros Ho Hr. destruct ev; simpl; try congruence; try lia.
  - unfold connectWebSocket. destruct created; simpl; lia.
  - pose proof (ws_onmessage_frame env now event_data st) as (_ & -> & _). lia.
  - unfold reconnect_timer, connectWebSocket. destruct created; simpl; lia.
  - rewrite animation_timer_frame. lia.
Qed.

(** *** Properties every stored snapshot has *)

Section Snapshots.

Variable env : Closure.
Variable P : CryptoPrice -> Prop.
Hypothesis P_snapshot : forall now crypto c p, P (snapshot env now crypto c p p).
Hypothesis P_set_neutral : forall p, P p -> P (set_neutral p).

Lemma each_ticker_snapshots now ticker acc timers newPrices :
  each_ticker parseFloat env now ticker acc = (timers, Normal newPrices) ->
  snapshots P (snd acc) -> snapshots P newPrices.
Proof.
  unfold each_ticker. unfold_bind.
  destruct (prop ticker "s") as [s|]; [|discriminate].
  destruct (find_crypto s) as [crypto|]; [|intros [= _ <-]; auto].
  destruct (prop ticker "c") as [c|]; [|discriminate].
  destruct (parseFloat c) as [currentPrice|]; [|discriminate].
  destruct (prop ticker "P") as [Pv|]; [|discriminate].
  destruct (parseFloat Pv) as [change|]; [|discriminate].
  intros [= _ <-] Hacc sym p.
  rewrite lookup_insert_Some. intros [[_ <-]|[_ Hp]]; [apply P_snapshot|eauto].
Qed.

Lemma forEach_snapshots now data : forall acc timers newPrices,
  forEach parseFloat env now data acc = (timers, Normal newPrices) ->
  snapshots P (snd acc) -> snapshots P newPrices.
Proof.
  induction data as [|ticker rest IH]; simpl; intros acc timers newPrices.
  - intros [= _ <-]. auto.
  - destruct (each_ticker _ _ _ _ _) as [timers' [newPrices'|]] eqn:Hone; [|discriminate].
    intros Hrest Hacc. eapply IH; [exact Hrest|].
    eapply each_ticker_snapshots; eauto.
Qed.

Lemma snapshots_empty : snapshots P ∅.
Proof. intros sym p. rewrite lookup_empty. discriminate. Qed.

Lemma ws_onmessage_snapshots now d st :
  snapshots P (prices st) ->
  snapshots P (prices (ws_onmessage parseFloat env now d st)).
Proof.
  intros Hst. unfold ws_onmessage. destruct d as [|[]]; simpl; auto.
  destruct (forEach _ _ _ _ _) as [timers [newPrices|message]] eqn:Hfe; simpl; auto.
  case_decide; simpl; auto.
  intros sym p. rewrite lookup_union_Some_raw. intros [Hnew|[_ Hold]]; [|eauto].
  eapply forEach_snapshots in Hfe; [eauto|apply snapshots_empty].
Qed.

Lemma animation_timer_snapshots sym st :
  snapshots P (prices st) -> snapshots P (prices (animation_timer sym st)).
Proof.
  intros Hst. unfold animation_timer. case_decide; simpl; auto.
  intros s p. rewrite lookup_alter_Some.
  intros [(_ & q & Hq & ->)|[_ Hp]]; [apply P_set_neutral; eauto|eauto].
Qed.

Lemma step_snapshots st ev :
  snapshots P (prices st) -> snapshots P (prices (step parseFloat env st ev)).
Proof.
  intros Hst. destruct ev; simpl; auto.
  - unfold connectWebSocket. destruct created; simpl; auto.
  - apply ws_onmessage_snapshots, Hst.
  - unfold reconnect_timer, connectWebSocket. destruct created; simpl; auto.
  - apply animation_timer_snapshots, Hst.
Qed.

Lemma steps_snapshots evs : forall st,
  snapshots P (prices st) ->
  snapshots P (prices (fold_left (step parseFloat env) evs st)).
Proof.
  induction evs as [|ev evs IH]; simpl; intros st Hst; [exact Hst|].
  apply IH, step_snapshots, Hst.
Qed.

End Snapshots.

Lemma run_snapshots (P : CryptoPrice -> Prop) (evs : list Event) :
  (forall now crypto c p, P (snapshot mounted now crypto c p p)) ->
  (forall p, P p -> P (set_neutral p)) ->
  snapshots P (prices (run parseFloat evs)).
Proof.
  intros Hsnap Hneutral. unfold run.
  apply (steps_snapshots mounted P Hsnap Hneutral), snapshots_empty.
Qed.

(** *** Payloads the aggregate handler throws on *)

Lemma prop_member (ticker : json) (k : string) :
  is_null ticker = false -> prop ticker k = Normal (member ticker k).
Proof. destruct ticker; try discriminate; reflexivity. Qed.

(** With the closure of the first render no ticker arms a timer, whether
    its body throws or not. *)
Lemma each_ticker_mounted_timers now ticker acc :
  fst (each_ticker parseFloat mounted now ticker acc) = fst acc.
Proof.
  unfold each_ticker. unfold_bind.
  destruct (prop ticker "s") as [s|]; [|reflexivity].
  destruct (find_crypto s) as [crypto|]; [|reflexivity].
  destruct (prop ticker "c") as [c|]; [|reflexivity].
  destruct (parseFloat c) as [currentPrice|]; [|reflexivity].
  rewrite mounted_prices. reflexivity.
Qed.

Lemma forEach_mounted_timers now data : forall acc,
  fst (forEach parseFloat mounted now data acc) = fst acc.
Proof.
  induction data as [|ticker rest IH]; simpl; intros acc; [reflexivity|].
  pose proof (each_ticker_mounted_timers now ticker acc) as Hone.
  destruct (each_ticker _ _ _ _ _) as [timers [newPrices|message]]; simpl in Hone.
  - rewrite IH. exact Hone.
  - exact Hone.
Qed.

(** A ticker on which the body throws, and one on which it does not. *)
Lemma each_ticker_throws env now ticker acc :
  ticker_throws parseFloat ticker = true ->
  exists message, snd (each_ticker parseFloat env now ticker acc) = Thrown message.
Proof.
  unfold ticker_throws, each_ticker, unreadable. unfold_bind.
  destruct (is_null ticker) eqn:Hnull.
  - destruct ticker; try discriminate. intros _. eexists. reflexivity.
  - rewrite !(prop_member ticker) by exact Hnull.
    replace (match ticker with JNull => true | _ => _ end)
      with (match find_crypto (member ticker "s") with
            | Some _ =>
                match parseFloat (member ticker "c") with
                | Normal _ => false | Thrown _ => true end
                || match parseFloat (member ticker "P") with
                   | Normal _ => false | Thrown _ => true end
            | None => false
            end)
      by (destruct ticker; try discriminate; reflexivity).
    destruct (find_crypto (member ticker "s")) as [crypto|]; [|discriminate].
    destruct (parseFloat (member ticker "c")) as [c|]; [|intros _; eexists; reflexivity].
    destruct (parseFloat (member ticker "P")) as [p|]; [discriminate|].
    intros _. eexists. reflexivity.
Qed.

Lemma forEach_throws env now data : forall acc,
  existsb (ticker_throws parseFloat) data = true ->
  exists message, snd (forEach parseFloat env now data acc) = Thrown message.
Proof.
  induction data as [|ticker rest IH]; simpl; intros acc Hthrows; [discriminate|].
  destruct (each_ticker parseFloat env now ticker acc) as [timers [newPrices|message]] eqn:Hone;
    [|eauto].
  apply orb_true_iff in Hthrows as [Hthrows|Hthrows]; [|eauto].
  destruct (each_ticker_throws env now ticker acc Hthrows) as [message Hm].
  rewrite Hone in Hm. discriminate.
Qed.

Lemma aggregate_discarded now d st :
  discarded parseFloat d = true -> ws_onmessage parseFloat mounted now d st = st.
Proof.
  unfold ws_onmessage, discarded. destruct d as [|[]]; simpl; auto; try discriminate.
  intros Hthrows.
  pose proof (forEach_mounted_timers now items (priceAnimationRefs st, ∅)) as Ht.
  destruct (forEach_throws mounted now items (priceAnimationRefs st, ∅) Hthrows) as [m Hm].
  destruct (forEach _ _ _ _ _) as [timers result]. simpl in *. subst.
  apply set_priceAnimationRefs_id.
Qed.

End WithBuiltins.

(** C3: BTCUSDT is stored at 100, the next ticker carries 101, and the
    snapshot that is stored has direction neutral and no previous price:
    the handler compares against [prices] of the first render. *)
Lemma C3_direction_after_rise :
  let st := run Examples.parseFloat Examples.btc_at_100 in
  let st' := step Examples.parseFloat mounted st (Message 6 (Examples.btc 101)) in
  price <$> (prices st !! "BTCUSDT") = Some (Num 100)
  /\ price <$> (prices st' !! "BTCUSDT") = Some (Num 101)
  /\ gt (Num 101) (Num 100) = true
  /\ (priceDirection <$> (prices st' !! "BTCUSDT")) = Some (Some neutral)
  /\ (previousPrice <$> (prices st' !! "BTCUSDT")) = Some None.
Proof. vm_compute. auto 6. Qed.

(** The counter goes to zero on an open and on a manual reconnect. *)
Lemma open_resets parseFloat env st :
  connectionAttempts (step parseFloat env st Open) = 0%nat.
Proof. reflexivity. Qed.

Lemma handleReconnect_resets parseFloat env st :
  connectionAttempts (step parseFloat env st HandleReconnect) = 0%nat.
Proof. reflexivity. Qed.

(** C8, as stated, fails: after two retries without an open the counter is
    2; a manual reconnect sets it to zero while the stream is still
    disconnected, and a manual reconnect is not an open. *)
Lemma C8_counterexample :
  let st := run Examples.parseFloat (Examples.retries 2) in
  let st' := step Examples.parseFloat mounted st HandleReconnect in
  connectionAttempts st = 2%nat /\ isConnected st = false
  /\ connectionAttempts st' = 0%nat /\ isConnected st' = false
  /\ HandleReconnect <> Open.
Proof. vm_compute. repeat split; discriminate. Qed.

(** C8, amended: an event that takes the reconnect attempt counter from a
    non-zero value to zero is a successful open of the aggregate stream or
    a manual reconnect; no other event resets it. *)
Theorem C8_reset_only_by_open_or_manual_reconnect
    (parseFloat : option json -> completion number) (env : Closure) (st : State) (ev : Event) :
  connectionAttempts st <> 0%nat ->
  connectionAttempts (step parseFloat env st ev) = 0%nat ->
  ev = Open \/ ev = HandleReconnect.
Proof.
  intros Hpos Hzero.
  pose proof (step_attempts_mono parseFloat env st ev) as Hle.
  rewrite Hzero in Hle.
  destruct ev; auto; exfalso; apply Hpos;
    (assert (connectionAttempts st <= 0)%nat by (apply Hle; discriminate)); lia.
Qed.

Lemma C8_witness : HandleReconnect = Open \/ HandleReconnect = HandleReconnect.
Proof.
  apply (C8_reset_only_by_open_or_manual_reconnect Examples.parseFloat mounted
           (run Examples.parseFloat (Examples.retries 2)) HandleReconnect).
  - vm_compute. discriminate.
  - vm_compute. reflexivity.
Defined.

(** C10: in every price snapshot of the price mapping, after any sequence
    of events from the first render, the [change24h] field equals the
    [changePercent24h] field: the message handler stores
    [Number.parseFloat(ticker.P)] in both, and the timer that resets the
    direction keeps both. *)
Theorem C10_change24h_equals_changePercent24h
    (parseFloat : option json -> completion number) (evs : list Event)
    (sym : string) (p : CryptoPrice) :
  prices (run parseFloat evs) !! sym = Some p ->
  change24h p = changePercent24h p.
Proof.
  apply (run_snapshots parseFloat same_change evs).
  - reflexivity.
  - intros q Hq. exact Hq.
Qed.

Lemma C10_witness :
  change24h Examples.btc_snapshot = changePercent24h Examples.btc_snapshot.
Proof.
  apply (C10_change24h_equals_changePercent24h Examples.parseFloat
           Examples.btc_at_100 "BTCUSDT").
  vm_compute. reflexivity.
Defined.

(** *** Further properties of the stream manager *)

(** The delay formula of [ws.onclose] as a function of the counter value it
    reads: 1000, 2000, 4000, 8000, 16000, 30000 for 0 to 5, never above
    30000, and 30000 from 5 on. *)
Theorem backoffDelay_values (n : nat) :
  backoffDelay n = Z.min (1000 * 2 ^ Z.of_nat n) 30000
  /\ backoffDelay n <= 30000
  /\ backoffDelay (5 + n) = 30000
  /\ map backoffDelay [0; 1; 2; 3; 4; 5]%nat = [1000; 2000; 4000; 8000; 16000; 30000].
Proof.
  split; [reflexivity|]. split; [apply backoffDelay_capped|].
  split; [apply backoffDelay_saturates; lia|apply backoffDelay_table].
Qed.

(** In every execution from the first render, whatever the state of the
    attempt counter, the reconnect timer armed by a close of the stream has
    a delay of 1000 ms. *)
Theorem mounted_close_delay (parseFloat : option json -> completion number) (evs : list Event) :
  reconnectTimeoutRef (step parseFloat mounted (run parseFloat evs) Close) = Some 1000.
Proof. apply onclose_delay. Qed.

(** In every execution from the first render, every snapshot of the price
    mapping has direction neutral and no previous price. *)
Theorem mounted_snapshots_no_movement
    (parseFloat : option json -> completion number) (evs : list Event)
    (sym : string) (p : CryptoPrice) :
  prices (run parseFloat evs) !! sym = Some p -> no_movement p.
Proof.
  apply (run_snapshots parseFloat no_movement evs).
  - intros now crypto c Pv. unfold no_movement, snapshot.
    rewrite mounted_prices. split; reflexivity.
  - intros q [_ Hprev]. split; [reflexivity|exact Hprev].
Qed.

Lemma mounted_snapshots_no_movement_witness : no_movement Examples.btc_snapshot.
Proof.
  apply (mounted_snapshots_no_movement Examples.parseFloat Examples.btc_at_100 "BTCUSDT").
  vm_compute. reflexivity.
Defined.

(** Against the entry it is given, with both prices numbers, the handler
    computes up exactly when the price rose, down exactly when it fell and
    neutral exactly when it is unchanged. *)
Theorem direction_against_closure (pd : CryptoPrice) (a b : Q) :
  price pd = Num a ->
  (direction (Some pd) (Num b) = up <-> (a < b)%Q)
  /\ (direction (Some pd) (Num b) = down <-> (b < a)%Q)
  /\ (direction (Some pd) (Num b) = neutral <-> (a == b)%Q).
Proof. apply direction_of_numbers. Qed.

Lemma direction_against_closure_witness :
  (direction (Some Examples.btc_snapshot) (Num 101) = up <-> (100 < 101)%Q)
  /\ (direction (Some Examples.btc_snapshot) (Num 101) = down <-> (101 < 100)%Q)
  /\ (direction (Some Examples.btc_snapshot) (Num 101) = neutral <-> (100 == 101)%Q).
Proof. apply (direction_against_closure Examples.btc_snapshot 100 101). reflexivity. Defined.

(** A price that reads as [NaN] is tagged down against any entry. *)
Lemma direction_of_NaN (pd : CryptoPrice) : direction (Some pd) NaN = down.
Proof. unfold direction, strict_neq, gt. destruct (price pd); reflexivity. Qed.

End TrackerProps.

(** ** Properties of the historical series loader *)

Module ChartProps.
Import JS Chart.

(** *** The window [prev.slice(-n)] *)

Lemma slice_last_suffix {A : Type} (n : nat) (l : list A) :
  exists pre, l = pre ++ slice_last n l.
Proof.
  unfold slice_last. destruct (Nat.eqb n 0).
  - exists []. reflexivity.
  - exists (take (length l - n) l). symmetry. apply take_drop.
Qed.

Lemma length_slice_last {A : Type} (n : nat) (l : list A) :
  n <> 0%nat -> (length (slice_last n l) <= n)%nat.
Proof.
  intros Hn. unfold slice_last.
  destruct (Nat.eqb_spec n 0) as [|_]; [contradiction|].
  rewrite length_drop. lia.
Qed.

Lemma slice_last_full {A : Type} (n : nat) (l : list A) :
  n <> 0%nat -> length l = S n -> slice_last n l = drop 1 l.
Proof.
  intros Hn Hl. unfold slice_last.
  destruct (Nat.eqb_spec n 0) as [|_]; [contradiction|].
  f_equal. lia.
Qed.

Lemma maxPoints_ge (tf : string) : (60 <= maxPoints tf)%nat.
Proof. unfold maxPoints. repeat case_match; lia. Qed.

(** On the four timeframes of the selector the live window is no larger
    than the history request (168 against 180 bars on "30d"). *)
Lemma maxPoints_le_capacity (tf : string) :
  tf ∈ timeframes -> (maxPoints tf <= capacity tf)%nat /\ (60 <= capacity tf)%nat.
Proof.
  unfold timeframes. rewrite !elem_of_cons, elem_of_nil.
  intros [->|[->|[->|[->|[]]]]]; vm_compute; split; repeat constructor.
Qed.

(** *** The placeholder series *)


Lemma sample_loop_timestamps fl random now n : forall k price,
  timestamp <$> sample_loop fl random now n k price
  = (fun i => now - Z.of_nat i * 60000) <$> rev (seq 0 n).
Proof.
  induction n as [|n IH]; intros k price; [reflexivity|].
  rewrite seq_S, rev_app_distr. simpl. rewrite IH. reflexivity.
Qed.

Lemma sample_loop_ascending fl random now n : forall k price,
  ascending (sample_loop fl random now n k price)
  /\ Forall (fun t => t <= now) (timestamp <$> sample_loop fl random now n k price).
Proof.
  unfold ascending.
  induction n as [|n IH]; intros k price; simpl.
  - split; constructor.
  - match goal with
    | |- context [sample_loop fl random now n ?k' ?p'] => destruct (IH k' p') as [Hs Hle]
    end.
    split; [|constructor; [lia|exact Hle]].
    constructor; [exact Hs|].
    rewrite sample_loop_timestamps, Forall_fmap, Forall_forall.
    intros i Hi. apply list_elem_of_In, in_rev, in_seq in Hi. simpl. lia.
Qed.

(** **** The closes under a rounding of relative error at most [u] *)

Section Rounding.

Variable fl : Q -> Q.
Variable u : Q.
Hypothesis u_small : (0 <= u <= 1 # 1000)%Q.
Hypothesis fl_error : forall x, (Qabs (fl x - x) <= u * Qabs x)%Q.







End Rounding.

(** Exact arithmetic rounds nothing (relative error 0), and a rounding
    that enlarges every result by the fraction [u] has relative error
    [u]. *)
Lemma exact_error (x : Q) : (Qabs (exact x - x) <= 0 * Qabs x)%Q.
Proof.
  unfold exact. assert (x - x == 0)%Q as -> by ring.
  change (Qabs 0) with 0%Q. lra.
Qed.


Lemma quarters_range (i : nat) : (0 <= Examples.quarters i < 1)%Q.
Proof.
  unfold Examples.quarters.
  pose proof (Nat.mod_upper_bound i 4) as Hlt.
  destruct (i mod 4)%nat as [|[|[|[|m]]]]; try (split; [discriminate|reflexivity]).
  lia.
Qed.

Section WithBuiltins.

Variable fl : Q -> Q.
Variable parseFloat : option json -> completion number.

(** *** The outcomes of [fetchHistoricalData] *)

Lemma formattedData_Klines (data : list Kline) :
  data <> [] -> formattedData parseFloat (Klines data) = map_format parseFloat data.
Proof. destruct data; [congruence|reflexivity]. Qed.

Lemma format_timestamp item d :
  format parseFloat item = Normal d -> timestamp d = item0 item.
Proof.
  unfold format. unfold_bind.
  repeat match goal with
         | |- context [match ?m with Normal _ => _ | Thrown _ => _ end] =>
             destruct m; try discriminate
         end.
  intros [= <-]. reflexivity.
Qed.

(** The rows that are read keep their order and their open times. *)
Lemma map_format_timestamps data : forall bars,
  map_format parseFloat data = Normal bars -> timestamp <$> bars = item0 <$> data.
Proof.
  induction data as [|item rest IH]; simpl; intros bars.
  - intros [= <-]. reflexivity.
  - unfold_bind.
    destruct (format parseFloat item) as [d|] eqn:Hd; [|discriminate].
    destruct (map_format parseFloat rest) as [bars'|]; [|discriminate].
    intros [= <-]. rewrite !fmap_cons, (IH bars' eq_refl).
    rewrite (format_timestamp item d Hd). reflexivity.
Qed.

Lemma settle_success req now random response data st :
  formattedData parseFloat response = Normal data ->
  fetchHistoricalData_settle fl parseFloat req now random response st
  = {| chartData := data; loading := false; timeframe := timeframe st;
       error := error st |}.
Proof. unfold fetchHistoricalData_settle. intros ->. reflexivity. Qed.


Lemma settle_error req now random response message st :
  formattedData parseFloat response = Thrown message ->
  truthy_opt (r_currentPrice req) = false ->
  fetchHistoricalData_settle fl parseFloat req now random response st
  = {| chartData := chartData st; loading := false; timeframe := timeframe st;
       error := Some ("Failed to load chart data: " +:+ message) |}.
Proof.
  unfold fetchHistoricalData_settle, catch, truthy_opt. intros ->.
  destruct (r_currentPrice req) as [p|]; [intros ->|intros _]; reflexivity.
Qed.

(** *** The live handler *)

Lemma newDataPoint_timestamp now ticker point :
  newDataPoint parseFloat now ticker = Normal point -> timestamp point = now.
Proof.
  unfold newDataPoint. unfold_bind.
  repeat match goal with
         | |- context [match ?m with Normal _ => _ | Thrown _ => _ end] =>
             destruct m; try discriminate
         end.
  intros [= <-]. reflexivity.
Qed.

(** A payload on which the block does not throw yields the bar of its five
    readings. *)
Lemma newDataPoint_readable now ticker :
  discarded parseFloat (Parsed ticker) = false ->
  exists c v o h l,
    parseFloat (member ticker "c") = Normal c
    /\ parseFloat (member ticker "v") = Normal v
    /\ parseFloat (member ticker "o") = Normal o
    /\ parseFloat (member ticker "h") = Normal h
    /\ parseFloat (member ticker "l") = Normal l
    /\ newDataPoint parseFloat now ticker
       = Normal {| timestamp := now; price := c; volume := v; open := o;
                   high := h; low := l; close := c |}.
Proof.
  intros Hd.
  assert (is_null ticker = false) as Hnull by (destruct ticker; [discriminate|..]; reflexivity).
  assert (existsb (fun k => unreadable parseFloat (member ticker k))
            ["c"; "v"; "o"; "h"; "l"] = false) as Hfields
    by (destruct ticker; [discriminate|..]; exact Hd).
  simpl in Hfields. unfold unreadable in Hfields.
  unfold newDataPoint. unfold_bind.
  rewrite !(TrackerProps.prop_member ticker) by exact Hnull.
  destruct (parseFloat (member ticker "c")) as [c|]; [|discriminate].
  destruct (parseFloat (member ticker "v")) as [v|]; [|discriminate].
  destruct (parseFloat (member ticker "o")) as [o|]; [|discriminate].
  destruct (parseFloat (member ticker "h")) as [h|]; [|discriminate].
  destruct (parseFloat (member ticker "l")) as [l|]; [|discriminate].
  exists c, v, o, h, l. repeat split; reflexivity.
Qed.

Lemma newDataPoint_not_discarded now ticker :
  discarded parseFloat (Parsed ticker) = false ->
  exists point, newDataPoint parseFloat now ticker = Normal point.
Proof.
  intros Hd. destruct (newDataPoint_readable now ticker Hd)
    as (c & v & o & h & l & _ & _ & _ & _ & _ & Hpoint).
  eexists. exact Hpoint.
Qed.

(** A payload on which the block throws yields no bar. *)
Lemma newDataPoint_discarded now ticker :
  discarded parseFloat (Parsed ticker) = true ->
  exists message, newDataPoint parseFloat now ticker = Thrown message.
Proof.
  intros Hd. destruct (is_null ticker) eqn:Hnull.
  - destruct ticker; try discriminate. eexists. reflexivity.
  - assert (existsb (fun k => unreadable parseFloat (member ticker k))
              ["c"; "v"; "o"; "h"; "l"] = true) as Hfields
      by (destruct ticker; [discriminate|..]; exact Hd).
    simpl in Hfields. unfold unreadable in Hfields.
    unfold newDataPoint. unfold_bind.
    rewrite !(TrackerProps.prop_member ticker) by exact Hnull.
    destruct (parseFloat (member ticker "c")) as [c|]; [|eexists; reflexivity].
    destruct (parseFloat (member ticker "v")) as [v|]; [|eexists; reflexivity].
    destruct (parseFloat (member ticker "o")) as [o|]; [|eexists; reflexivity].
    destruct (parseFloat (member ticker "h")) as [h|]; [|eexists; reflexivity].
    destruct (parseFloat (member ticker "l")) as [l|]; [|eexists; reflexivity].
    discriminate.
Qed.

Lemma ws_onmessage_append now ticker point st :
  newDataPoint parseFloat now ticker = Normal point ->
  ws_onmessage parseFloat now (Parsed ticker) st
  = setChartData
      (fun prev => slice_last (maxPoints (timeframe st) - 1) prev ++ [point]) st.
Proof. unfold ws_onmessage. unfold_bind. simpl. intros ->. reflexivity. Qed.

Lemma ws_onmessage_cases now d st :
  ws_onmessage parseFloat now d st = st
  \/ exists point, timestamp point = now
       /\ ws_onmessage parseFloat now d st
          = setChartData
              (fun prev => slice_last (maxPoints (timeframe st) - 1) prev ++ [point]) st.
Proof.
  unfold ws_onmessage.
  destruct (ticker ← JSON_parse d; newDataPoint parseFloat now ticker)
    as [point|message] eqn:Hp; [right|left; reflexivity].
  exists point. split; [|reflexivity].
  destruct d as [|ticker]; [discriminate|].
  eapply newDataPoint_timestamp, Hp.
Qed.

Lemma single_discarded now d st :
  discarded parseFloat d = true -> ws_onmessage parseFloat now d st = st.
Proof.
  intros Hd. unfold ws_onmessage. destruct d as [|ticker]; [reflexivity|].
  destruct (newDataPoint_discarded now ticker Hd) as [message Hm].
  unfold_bind. simpl. rewrite Hm. reflexivity.
Qed.

(** One live message keeps the window ascending and within capacity when
    its clock reading is no earlier than the bars and the later readings. *)
Lemma ws_onmessage_invariant now d st (later : list Z) :
  timeframe st ∈ timeframes ->
  (length (chartData st) <= capacity (timeframe st))%nat ->
  StronglySorted Z.le ((timestamp <$> chartData st) ++ now :: later) ->
  let st' := ws_onmessage parseFloat now d st in
  timeframe st' = timeframe st
  /\ (length (chartData st') <= capacity (timeframe st'))%nat
  /\ StronglySorted Z.le ((timestamp <$> chartData st') ++ later).
Proof.
  intros Htf Hlen Hsorted.
  destruct (ws_onmessage_cases now d st) as [->|(point & Hnow & ->)]; simpl.
  - repeat split; [exact Hlen|].
    apply StronglySorted_app in Hsorted as (Hcross & Hl & Hr).
    apply StronglySorted_app. repeat split; [|exact Hl|].
    + intros x1 x2 H1 H2. apply Hcross; [exact H1|]. apply elem_of_cons. auto.
    + apply StronglySorted_cons in Hr. apply Hr.
  - destruct (maxPoints_le_capacity _ Htf) as [Hmax _].
    pose proof (maxPoints_ge (timeframe st)) as Hge.
    repeat split.
    + rewrite length_app. simpl.
      pose proof (length_slice_last (maxPoints (timeframe st) - 1) (chartData st)).
      lia.
    + destruct (slice_last_suffix (maxPoints (timeframe st) - 1) (chartData st))
        as [pre Hpre].
      rewrite Hpre in Hsorted at 1.
      rewrite fmap_app, <- app_assoc in Hsorted.
      apply StronglySorted_app_1_r in Hsorted.
      rewrite fmap_app, <- app_assoc. simpl. rewrite Hnow. exact Hsorted.
Qed.

Lemma live_invariant messages : forall st,
  timeframe st ∈ timeframes ->
  (length (chartData st) <= capacity (timeframe st))%nat ->
  StronglySorted Z.le ((timestamp <$> chartData st) ++ (fst <$> messages)) ->
  let st' := live parseFloat messages st in
  timeframe st' = timeframe st
  /\ (length (chartData st') <= capacity (timeframe st'))%nat
  /\ ascending (chartData st').
Proof.
  unfold ascending.
  induction messages as [|[now d] rest IH]; simpl; intros st Htf Hlen Hsorted.
  - rewrite app_nil_r in Hsorted. auto.
  - destruct (ws_onmessage_invariant now d st (fst <$> rest) Htf Hlen Hsorted)
      as (Htf' & Hlen' & Hsorted').
    destruct (IH (ws_onmessage parseFloat now d st)) as (Htf'' & Hlen'' & Hs'');
      [rewrite Htf'; exact Htf|exact Hlen'|exact Hsorted'|].
    repeat split; [congruence|exact Hlen''|exact Hs''].
Qed.

End WithBuiltins.

(** *** Two loads whose responses arrive out of order *)

(** C1, as stated, fails: a load for BTCUSDT and then one for ETHUSDT are
    started, the ETHUSDT response is applied, then the BTCUSDT response
    arrives: the bar sequence ends up holding the BTCUSDT bar. *)
Lemma C1_counterexample :
  let reqA := Examples.request "BTCUSDT" None in
  let reqB := Examples.request "ETHUSDT" None in
  let st1 := fetchHistoricalData_start (fetchHistoricalData_start initial) in
  let st2 := fetchHistoricalData_settle exact Examples.parseFloat reqB 2500 Examples.half
               (Klines [Examples.kline 2000 3000]) st1 in
  let st3 := fetchHistoricalData_settle exact Examples.parseFloat reqA 2600 Examples.half
               (Klines [Examples.kline 1000 100]) st2 in
  chartData st2 = [Examples.bar 2000 3000]
  /\ chartData st3 = [Examples.bar 1000 100]
  /\ chartData st3 <> chartData st2.
Proof. vm_compute. repeat split; discriminate. Qed.

(** C1, amended: for two consecutive history loads A then B on the same
    open chart, where A's response (a non-empty list of rows, each an
    array that starts with an integer open time and whose entries 1 to 5
    [Number.parseFloat] reads without throwing) arrives after B's has been
    applied, the final bar sequence is A's data, the bars [barsA] its rows
    are mapped to: no generation or version tag is kept, the late response
    is applied like any other and replaces the bar sequence. *)
Theorem C1_late_response_replaces_the_bars
    (fl : Q -> Q) (parseFloat : option json -> completion number)
    (reqA reqB : Request) (nowA nowB : Z)
    (randomA randomB : nat -> Q) (dataA : list Kline) (barsA : list ChartData)
    (responseB : Response) (st : State) :
  dataA <> [] ->
  map_format parseFloat dataA = Normal barsA ->
  chartData
    (fetchHistoricalData_settle fl parseFloat reqA nowA randomA (Klines dataA)
       (fetchHistoricalData_settle fl parseFloat reqB nowB randomB responseB
          (fetchHistoricalData_start (fetchHistoricalData_start st))))
  = barsA.
Proof.
  intros Hdata Hbars.
  rewrite (settle_success fl parseFloat reqA nowA randomA (Klines dataA) barsA);
    [reflexivity|].
  rewrite formattedData_Klines by exact Hdata. exact Hbars.
Qed.

Lemma C1_witness :
  chartData
    (fetchHistoricalData_settle exact Examples.parseFloat (Examples.request "BTCUSDT" None)
       2600 Examples.half (Klines [Examples.kline 1000 100])
       (fetchHistoricalData_settle exact Examples.parseFloat
          (Examples.request "ETHUSDT" None)
          2500 Examples.half (Klines [Examples.kline 2000 3000])
          (fetchHistoricalData_start (fetchHistoricalData_start initial))))
  = [Examples.bar 1000 100].
Proof.
  apply (C1_late_response_replaces_the_bars exact Examples.parseFloat).
  - discriminate.
  - reflexivity.
Defined.

(** *** The invariant of the bar window *)

(** C4, as stated, fails: the rows of the response are stored in the order
    the endpoint sent them. *)
Lemma C4_counterexample :
  let st := fetchHistoricalData_settle exact Examples.parseFloat
              (Examples.request "BTCUSDT" None) 3000 Examples.half
              (Klines [Examples.kline 2000 100; Examples.kline 1000 100])
              (fetchHistoricalData_start initial) in
  timestamp <$> chartData st = [2000; 1000] /\ ~ ascending (chartData st).
Proof.
  split; [reflexivity|]. unfold ascending.
  change (~ StronglySorted Z.le [2000; 1000]).
  intros H. apply StronglySorted_cons in H as [H _].
  apply Forall_cons in H as [H _]. lia.
Qed.

(** C4, amended: on a chart with one of the four timeframes, when the
    history endpoint answers the request of the current timeframe with a
    non-empty list of at most [limit] rows in ascending order of open time
    (each an array that starts with an integer open time and whose entries
    1 to 5 [Number.parseFloat] reads without throwing),
    and every live update is stamped no earlier than the last bar and than
    the update before it, then after the bulk load and after each of any
    number of live appends (the first [n] messages, for every [n]) the bar
    sequence is ascending by timestamp and no longer than the capacity of
    the timeframe (the bar count [intervalMap] maps it to). *)
Theorem C4_window_ascending_and_within_capacity
    (fl : Q -> Q) (parseFloat : option json -> completion number)
    (req : Request) (now : Z)
    (random : nat -> Q) (data : list Kline) (bars : list ChartData)
    (messages : list (Z * parsed)) (st : State) (n : nat) :
  timeframe st ∈ timeframes ->
  r_timeframe req = timeframe st ->
  data <> [] ->
  map_format parseFloat data = Normal bars ->
  (length data <= limit (config (r_timeframe req)))%nat ->
  StronglySorted Z.le ((item0 <$> data) ++ (fst <$> messages)) ->
  ascending
    (chartData (live parseFloat (take n messages)
       (fetchHistoricalData_settle fl parseFloat req now random (Klines data) st)))
  /\ (length
        (chartData (live parseFloat (take n messages)
           (fetchHistoricalData_settle fl parseFloat req now random (Klines data) st)))
      <= capacity
           (timeframe (live parseFloat (take n messages)
              (fetchHistoricalData_settle fl parseFloat req now random (Klines data) st))))%nat.
Proof.
  intros Htf Hreq Hdata Hbars Hlen Hsorted.
  pose proof (map_format_timestamps parseFloat data bars Hbars) as Hstamps.
  rewrite (settle_success fl parseFloat req now random (Klines data) bars)
    by (rewrite formattedData_Klines by exact Hdata; exact Hbars).
  edestruct (live_invariant parseFloat (take n messages)) as (_ & Hl & Ha);
    [| | |split; [exact Ha|exact Hl]].
  - exact Htf.
  - simpl. unfold capacity. rewrite <- Hreq.
    apply (f_equal length) in Hstamps. rewrite !length_fmap in Hstamps.
    rewrite Hstamps. exact Hlen.
  - simpl. rewrite Hstamps.
    rewrite <- (take_drop n messages), fmap_app, app_assoc in Hsorted.
    apply StronglySorted_app_1_l in Hsorted. exact Hsorted.
Qed.

Lemma C4_witness :
  ascending
    (chartData (live Examples.parseFloat (take 1 Examples.two_ticks)
       (fetchHistoricalData_settle exact Examples.parseFloat
          (Examples.request "BTCUSDT" None)
          Examples.t2500 Examples.half
          (Klines [Examples.kline 1000 100; Examples.kline 2000 101])
          (fetchHistoricalData_start initial))))
  /\ (length
        (chartData (live Examples.parseFloat (take 1 Examples.two_ticks)
           (fetchHistoricalData_settle exact Examples.parseFloat
              (Examples.request "BTCUSDT" None) Examples.t2500 Examples.half
              (Klines [Examples.kline 1000 100; Examples.kline 2000 101])
              (fetchHistoricalData_start initial))))
      <= capacity
           (timeframe (live Examples.parseFloat (take 1 Examples.two_ticks)
              (fetchHistoricalData_settle exact Examples.parseFloat
                 (Examples.request "BTCUSDT" None) Examples.t2500 Examples.half
                 (Klines [Examples.kline 1000 100; Examples.kline 2000 101])
                 (fetchHistoricalData_start initial)))))%nat.
Proof.
  apply (C4_window_ascending_and_within_capacity exact Examples.parseFloat
           (Examples.request "BTCUSDT" None) Examples.t2500 Examples.half
           [Examples.kline 1000 100; Examples.kline 2000 101]
           [Examples.bar 1000 100; Examples.bar 2000 101]).
  - apply elem_of_cons. left. reflexivity.
  - reflexivity.
  - discriminate.
  - reflexivity.
  - simpl. lia.
  - simpl. repeat first [lia | constructor].
Defined.

(** *** A failed load *)




(** C6, as stated, fails: a chart that already holds a bar (a live bar
    that arrived before the response, or the bars of an earlier load)
    keeps it when the load fails without a current price. *)
Lemma C6_counterexample :
  let st := fetchHistoricalData_settle exact Examples.parseFloat
              (Examples.request "BTCUSDT" None) 3000 Examples.half
              (Rejected "Failed to fetch")
              (fetchHistoricalData_start (Examples.chart [Examples.bar 1000 100])) in
  error st = Some "Failed to load chart data: Failed to fetch"
  /\ chartData st = [Examples.bar 1000 100]
  /\ chartData st <> [].
Proof. vm_compute. repeat split; discriminate. Qed.

(** C6, amended: for every history fetch that fails while no current price
    is known for the symbol, on completion the error flag is true and the
    bar sequence is what it was before the response (the [catch] block does
    not clear it): it is empty when it was empty. *)
Theorem C6_error_without_price
    (fl : Q -> Q) (parseFloat : option json -> completion number)
    (req : Request) (now : Z)
    (random : nat -> Q) (response : Response) (message : string) (st : State) :
  formattedData parseFloat response = Thrown message ->
  r_currentPrice req = None ->
  error (fetchHistoricalData_settle fl parseFloat req now random response st)
  = Some ("Failed to load chart data: " +:+ message)
  /\ chartData (fetchHistoricalData_settle fl parseFloat req now random response st)
     = chartData st
  /\ (chartData st = [] ->
      chartData (fetchHistoricalData_settle fl parseFloat req now random response st) = [])
  /\ loading (fetchHistoricalData_settle fl parseFloat req now random response st) = false.
Proof.
  intros Hfail Hprice.
  rewrite (settle_error fl parseFloat req now random response message)
    by (try rewrite Hprice; auto).
  cbn [chartData error loading]. auto.
Qed.

Lemma C6_witness :
  error (fetchHistoricalData_settle exact Examples.parseFloat
           (Examples.request "BTCUSDT" None)
           3000 Examples.half (NotOk 500) (fetchHistoricalData_start initial))
  = Some ("Failed to load chart data: " +:+ "HTTP error! status: 500")
  /\ chartData (fetchHistoricalData_settle exact Examples.parseFloat
                  (Examples.request "BTCUSDT" None) 3000 Examples.half (NotOk 500)
                  (fetchHistoricalData_start initial))
     = chartData (fetchHistoricalData_start initial)
  /\ (chartData (fetchHistoricalData_start initial) = [] ->
      chartData (fetchHistoricalData_settle exact Examples.parseFloat
                   (Examples.request "BTCUSDT" None) 3000 Examples.half (NotOk 500)
                   (fetchHistoricalData_start initial)) = [])
  /\ loading (fetchHistoricalData_settle exact Examples.parseFloat
                (Examples.request "BTCUSDT" None) 3000 Examples.half (NotOk 500)
                (fetchHistoricalData_start initial)) = false.
Proof.
  apply (C6_error_without_price exact Examples.parseFloat (Examples.request "BTCUSDT" None)
           3000 Examples.half (NotOk 500) "HTTP error! status: 500").
  - vm_compute. reflexivity.
  - reflexivity.
Defined.

(** *** Eviction from a full window *)

(** C7: when the bar sequence holds exactly [maxPoints] bars, the capacity
    of the live window, a live update that yields a bar leaves a sequence
    of the same length whose last element is the new bar; the bar that was
    at index 0 is gone and the others follow in their order. *)
Theorem C7_append_to_full_window
    (parseFloat : option json -> completion number) (now : Z) (ticker : json)
    (point : ChartData) (st : State) :
  newDataPoint parseFloat now ticker = Normal point ->
  length (chartData st) = maxPoints (timeframe st) ->
  length (chartData (ws_onmessage parseFloat now (Parsed ticker) st))
  = maxPoints (timeframe st)
  /\ last (chartData (ws_onmessage parseFloat now (Parsed ticker) st)) = Some point
  /\ exists oldest others,
       chartData st = oldest :: others
       /\ chartData (ws_onmessage parseFloat now (Parsed ticker) st) = others ++ [point].
Proof.
  intros Hpoint Hfull.
  rewrite (ws_onmessage_append parseFloat now ticker point st Hpoint).
  cbn [setChartData chartData].
  pose proof (maxPoints_ge (timeframe st)) as Hge.
  rewrite (slice_last_full (maxPoints (timeframe st) - 1) (chartData st)) by lia.
  destruct (chartData st) as [|oldest others] eqn:Hbars; [simpl in Hfull; lia|].
  simpl in *. rewrite drop_0, length_app, last_snoc. simpl.
  repeat split; [lia|]. exists oldest, others. auto.
Qed.

Lemma C7_witness :
  length (chartData (ws_onmessage Examples.parseFloat Examples.t2500
                       (Parsed (Examples.ticker 101))
                       (Examples.chart (replicate 60 (Examples.bar 1000 100)))))
  = maxPoints (timeframe (Examples.chart (replicate 60 (Examples.bar 1000 100))))
  /\ last (chartData (ws_onmessage Examples.parseFloat Examples.t2500
                        (Parsed (Examples.ticker 101))
                        (Examples.chart (replicate 60 (Examples.bar 1000 100)))))
     = Some (Examples.bar Examples.t2500 101)
  /\ exists oldest others,
       chartData (Examples.chart (replicate 60 (Examples.bar 1000 100)))
       = oldest :: others
       /\ chartData (ws_onmessage Examples.parseFloat Examples.t2500
                       (Parsed (Examples.ticker 101))
                       (Examples.chart (replicate 60 (Examples.bar 1000 100))))
          = others ++ [Examples.bar Examples.t2500 101].
Proof.
  apply (C7_append_to_full_window Examples.parseFloat Examples.t2500
           (Examples.ticker 101) (Examples.bar Examples.t2500 101)
           (Examples.chart (replicate 60 (Examples.bar 1000 100)))).
  - reflexivity.
  - reflexivity.
Defined.

(** *** Further properties of the loader *)

(** Every payload on which the block does not throw (a value other than
    [null] whose five fields [Number.parseFloat] reads) appends one bar,
    stamped with the clock reading and holding the five readings, to the
    last [maxPoints - 1] bars. *)
Theorem live_update_appends
    (parseFloat : option json -> completion number) (now : Z) (ticker : json)
    (st : State) :
  discarded parseFloat (Parsed ticker) = false ->
  exists c v o h l,
    parseFloat (member ticker "c") = Normal c
    /\ parseFloat (member ticker "v") = Normal v
    /\ parseFloat (member ticker "o") = Normal o
    /\ parseFloat (member ticker "h") = Normal h
    /\ parseFloat (member ticker "l") = Normal l
    /\ chartData (ws_onmessage parseFloat now (Parsed ticker) st)
       = slice_last (maxPoints (timeframe st) - 1) (chartData st)
         ++ [{| timestamp := now; price := c; volume := v; open := o;
                high := h; low := l; close := c |}].
Proof.
  intros Hd.
  destruct (newDataPoint_readable parseFloat now ticker Hd)
    as (c & v & o & h & l & Hc & Hv & Ho & Hh & Hl & Hpoint).
  exists c, v, o, h, l. repeat (split; [assumption|]).
  rewrite (ws_onmessage_append parseFloat now ticker _ st Hpoint). reflexivity.
Qed.

Lemma live_update_appends_witness :
  exists c v o h l,
    Examples.parseFloat (member (JObj []) "c") = Normal c
    /\ Examples.parseFloat (member (JObj []) "v") = Normal v
    /\ Examples.parseFloat (member (JObj []) "o") = Normal o
    /\ Examples.parseFloat (member (JObj []) "h") = Normal h
    /\ Examples.parseFloat (member (JObj []) "l") = Normal l
    /\ chartData (ws_onmessage Examples.parseFloat Examples.t2500 (Parsed (JObj [])) initial)
       = slice_last (maxPoints (timeframe initial) - 1) (chartData initial)
         ++ [{| timestamp := Examples.t2500; price := c; volume := v; open := o;
                high := h; low := l; close := c |}].
Proof.
  apply (live_update_appends Examples.parseFloat Examples.t2500 (JObj []) initial).
  reflexivity.
Defined.

(** The placeholder series is ascending by timestamp and no bar of it is
    stamped later than the clock reading it was built at. *)
Theorem sampleData_ascending
    (fl : Q -> Q) (random : nat -> Q) (now : Z) (currentPrice : number) :
  ascending (sampleData fl random now currentPrice)
  /\ Forall (fun t => t <= now) (timestamp <$> sampleData fl random now currentPrice).
Proof. apply sample_loop_ascending. Qed.

(** The timeframe "24h" requests granularity "5m" and 288 bars. *)
Theorem request_24h (symbol : string) (currentPrice : option number) :
  url {| r_symbol := symbol; r_timeframe := "24h"; r_currentPrice := currentPrice |}
  = "https://api.binance.com/api/v3/klines?symbol=" +:+ symbol
    +:+ "&interval=5m&limit=288"
  /\ capacity "24h" = 288%nat.
Proof. split; reflexivity. Qed.

(** On "30d" the history request asks for 180 bars and the live window
    keeps 168: the first live update that yields a bar after a full load
    leaves 168 bars. *)
Theorem thirty_day_window
    (parseFloat : option json -> completion number) (now : Z) (ticker : json)
    (st : State) :
  timeframe st = "30d" ->
  length (chartData st) = capacity "30d" ->
  discarded parseFloat (Parsed ticker) = false ->
  capacity "30d" = 180%nat
  /\ length (chartData (ws_onmessage parseFloat now (Parsed ticker) st)) = 168%nat.
Proof.
  intros Htf Hlen Hd. split; [reflexivity|].
  destruct (newDataPoint_not_discarded parseFloat now ticker Hd) as [point Hpoint].
  rewrite (ws_onmessage_append parseFloat now ticker point st Hpoint).
  cbn [setChartData chartData].
  rewrite Htf, length_app. unfold slice_last. simpl Nat.eqb. cbv iota.
  rewrite length_drop, Hlen. reflexivity.
Qed.

Lemma thirty_day_window_witness :
  capacity "30d" = 180%nat
  /\ length (chartData (ws_onmessage Examples.parseFloat Examples.t2500
                          (Parsed (Examples.ticker 101)) (Examples.month 180)))
     = 168%nat.
Proof.
  apply (thirty_day_window Examples.parseFloat Examples.t2500 (Examples.ticker 101)
           (Examples.month 180)).
  - reflexivity.
  - reflexivity.
  - reflexivity.
Defined.

End ChartProps.

(** ** More of the ticker stream manager *)

Module TrackerExt.
Import JS Tracker.

(** The symbols of the tracked assets. *)
Definition tracked : list string := symbol <$> CRYPTO_SYMBOLS.

(** The events that set the attempt counter to zero, and the one that
    increments it. *)
Definition resets (ev : Event) : bool :=
  match ev with
  | Open | HandleReconnect => true
  | _ => false
  end.

Definition is_timer (ev : Event) : bool :=
  match ev with
  | ReconnectTimer _ => true
  | _ => false
  end.


Section WithBuiltins.

Variable parseFloat : option json -> completion number.

(** The snapshot a ticker yields for the symbol [sym], when it is a ticker
    of that tracked symbol whose [c] and [P] [Number.parseFloat] reads. *)
Definition entry_of (env : Closure) (now : Z) (sym : string) (ticker : json)
  : option CryptoPrice :=
  match find_crypto (member ticker "s") with
  | Some crypto =>
      if decide (symbol crypto = sym)
      then
        match parseFloat (member ticker "c"), parseFloat (member ticker "P") with
        | Normal currentPrice, Normal change =>
            Some (snapshot env now crypto currentPrice change change)
        | _, _ => None
        end
      else None
  | None => None
  end.

(** The snapshot of the last ticker of [sym] in a batch. *)
Definition latest (env : Closure) (now : Z) (sym : string) (data : list json)
  : option CryptoPrice :=
  last (omap (entry_of env now sym) data).

End WithBuiltins.

End TrackerExt.

(** ** More of the chart: what is drawn from the state *)

Module ChartExt.
Import JS Chart.

(** [x >= y] on numbers: false as soon as one side is [NaN]. *)
Definition ge (x y : number) : bool :=
  match x, y with
  | Num a, Num b => Qle_bool b a
  | Infinity false, Num _ => true
  | Num _, Infinity true => true
  | Infinity s, Infinity t => implb s t
  | _, _ => false
  end.

(** [x / y].  The zero a finite number is divided by is taken as [+0] (the
    zero divisors of the code are differences [x - x] and the literal
    [0]). *)
Definition div (x y : number) : number :=
  match x, y with
  | Num a, Num b =>
      if Qeq_bool b 0
      then (if Qeq_bool a 0 then NaN else Infinity (negative a))
      else Num (a / b)
  | Num _, Infinity _ => Num 0
  | Infinity s, Num b => Infinity (xorb s (negative b))
  | _, _ => NaN
  end.


(** [x || y] for two numbers. *)
Definition or_number (x y : number) : number := if truthy x then x else y.



(** [Math.min(...l)] and [Math.max(...l)]: [NaN] as soon as one element
    is, and the infinities of no argument. *)
Definition Math_min_all (l : list number) : number :=
  fold_left Math_min l (Infinity false).

Definition Math_max_all (l : list number) : number :=
  fold_left Math_max l (Infinity true).

(** *** The header of the chart (lines 188 to 192) *)






(** *** What the card of the chart shows (lines 414 to 440) *)

Inductive View : Type :=
| Spinner
| ErrorPanel (message : string)
| NoData
| Plot (bars : list ChartData).

(** [loading ? ... : error ? ... : chartData.length === 0 ? ... : ...]; the
    empty string is falsy. *)
Definition view (st : State) : View :=
  if loading st then Spinner
  else
    match error st with
    | Some (String a message) => ErrorPanel (String a message)
    | _ =>
        match chartData st with
        | [] => NoData
        | bars => Plot bars
        end
    end.

(** The events of the component.  [Fetch] is a call of
    [fetchHistoricalData] (by the effect after the first render, by
    Refresh, Try Again and Load Data), [Settle] the arrival of the response
    of one call, [Live] a message of the per-symbol stream, and
    [SelectTimeframe] a click on a timeframe button, which is disabled
    while [loading]: [setTimeframe(tf)], and when that changes [timeframe]
    the effect that depends on it calls [fetchHistoricalData]. *)
Inductive Event : Type :=
| Fetch
| Settle (req : Request) (now : Z) (random : nat -> Q) (response : Response)
| Live (now : Z) (event_data : parsed)
| SelectTimeframe (tf : string).

Section WithBuiltins.

Variable fl : Q -> Q.
Variable parseFloat : option json -> completion number.

Definition step (st : State) (ev : Event) : State :=
  match ev with
  | Fetch => fetchHistoricalData_start st
  | Settle req now random response =>
      fetchHistoricalData_settle fl parseFloat req now random response st
  | Live now event_data => ws_onmessage parseFloat now event_data st
  | SelectTimeframe tf =>
      if loading st || String.eqb tf (timeframe st) then st
      else fetchHistoricalData_start (setTimeframe tf st)
  end.

(** The component after a sequence of events, from the first render. *)
Definition run (evs : list Event) : State := fold_left step evs initial.

End WithBuiltins.

(** *** The shapes of the candlestick chart (lines 207 to 261) *)

(** The props the chart library passes to a shape. *)
Record ShapeProps : Type := {
  payload : option ChartData;
  x : number;
  y : number;
  width : number;
  height : number
}.

(** The [line] and the [rect] of a candle. *)
Record Candle : Type := {
  wickX : number;
  highY : number;
  lowY : number;
  bodyX : number;
  bodyTop : number;
  bodyWidth : number;
  bodyHeight : number;
  stroke : string;
  fill : string
}.

(** [Math.min(...chartData.map((d) => d.low || d.price))] and
    [Math.max(...chartData.map((d) => d.high || d.price))]. *)
Definition minPrice (chartData : list ChartData) : number :=
  Math_min_all ((fun d => or_number (low d) (price d)) <$> chartData).

Definition maxPrice (chartData : list ChartData) : number :=
  Math_max_all ((fun d => or_number (high d) (price d)) <$> chartData).

(** [CandlestickBar]; [None] is [null]. *)
Definition CandlestickBar (chartData : list ChartData) (props : ShapeProps) : option Candle :=
  match payload props with
  | Some p =>
      if truthy (open p) && truthy (high p) && truthy (low p) && truthy (close p)
      then
        let isBullish := ge (close p) (open p) in
        let color := if isBullish then "#00d4aa" else "#ff6b6b" in
        let priceRange := sub (maxPrice chartData) (minPrice chartData) in
        let at_price v :=
          add (y props) (mul (div (sub (maxPrice chartData) v) priceRange) (height props)) in
        let highY := at_price (high p) in
        let lowY := at_price (low p) in
        let openY := at_price (open p) in
        let closeY := at_price (close p) in
        let bodyTop := Math_min openY closeY in
        let bodyBottom := Math_max openY closeY in
        Some {| wickX := add (x props) (div (width props) (Num 2));
                highY := highY;
                lowY := lowY;
                bodyX := add (x props) (mul (width props) (Num 0.25));
                bodyTop := bodyTop;
                bodyWidth := mul (width props) (Num 0.5);
                bodyHeight := Math_max (sub bodyBottom bodyTop) (Num 1);
                stroke := color;
                fill := if isBullish then color else "transparent" |}
      else None
  | None => None
  end.

(** The [rect] of a volume bar. *)
Record VolumeRect : Type := {
  rectX : number;
  volumeY : number;
  rectWidth : number;
  volumeHeight : number;
  rectFill : string
}.

(** [Math.max(...chartData.map((d) => d.volume || 0))]. *)
Definition maxVolume (chartData : list ChartData) : number :=
  Math_max_all ((fun d => or_number (volume d) (Num 0)) <$> chartData).

(** [VolumeBar]; [None] is [null]. *)
Definition VolumeBar (chartData : list ChartData) (props : ShapeProps) : option VolumeRect :=
  match payload props with
  | Some p =>
      if truthy (volume p)
      then
        let volumeHeight :=
          mul (mul (div (volume p) (maxVolume chartData)) (height props)) (Num 0.8) in
        let isBullish := ge (close p) (open p) in
        Some {| rectX := add (x props) (mul (width props) (Num 0.1));
                volumeY := sub (add (y props) (height props)) volumeHeight;
                rectWidth := mul (width props) (Num 0.8);
                volumeHeight := volumeHeight;
                rectFill := if isBullish then "#00d4aa40" else "#ff6b6b40" |}
      else None
  | None => None
  end.

(** *** Predicates on bars *)

(** A candle of positive prices: [low <= open, close <= high]. *)
Definition well_formed (d : ChartData) : Prop :=
  exists o h l c,
    open d = Num o /\ high d = Num h /\ low d = Num l /\ close d = Num c
    /\ price d = Num c
    /\ (0 < l)%Q /\ (l <= o)%Q /\ (l <= c)%Q /\ (o <= h)%Q /\ (c <= h)%Q.

(** Each bar opens at the close of the bar before it, the first at [prev]. *)
Fixpoint chained (prev : number) (bars : list ChartData) : Prop :=
  match bars with
  | [] => True
  | d :: rest => open d = prev /\ chained (close d) rest
  end.

End ChartExt.

(** ** More concrete inputs *)

Module MoreExamples.
Import JS.

(** A ticker of the aggregate stream. *)
Definition agg (s : string) (c : Q) : json :=
  JObj [("s", JStr s); ("c", JNum (Num c)); ("P", JNum (Num 1.5))].

(** A batch with two tickers of BTCUSDT around one of a symbol that is not
    tracked. *)
Definition batch : list json :=
  [agg "BTCUSDT" 100; agg "XRPUSDT" 1; agg "BTCUSDT" 101].

(** A message for ETHUSDT after a close. *)
Definition later : list Tracker.Event :=
  [Tracker.Close; Tracker.Message 7 (Parsed (JArr [agg "ETHUSDT" 5]))].

(** Three closes with their timers and an error, after an open. *)
Definition three_retries : list Tracker.Event :=
  Examples.closes 3 ++ [Tracker.Error].

(** A chart of two flat bars, at 100 and at 110, and the props of the
    shape of the first one in a band of height 200 at [y = 50]. *)
Definition two_bars : list Chart.ChartData :=
  [Examples.bar 1000 100; Examples.bar 2000 110].

Definition first_shape : ChartExt.ShapeProps :=
  {| ChartExt.payload := Some (Examples.bar 1000 100);
     ChartExt.x := Num 0; ChartExt.y := Num 50;
     ChartExt.width := Num 10; ChartExt.height := Num 200 |}.

(** A batch whose ticker of BTCUSDT carries a price that cannot be
    converted to a string, and a per-symbol payload with such a price. *)
Definition garbled_batch : parsed :=
  Parsed (JArr [JObj [("s", JStr "BTCUSDT"); ("c", Examples.unconvertible);
                      ("P", JNum (Num 1.5))]]).

Definition garbled_ticker : parsed :=
  Parsed (JObj [("c", Examples.unconvertible); ("v", JNum (Num 1))]).

(** A batch whose ticker carries only its symbol. *)
Definition bare_batch : list json := [JObj [("s", JStr "BTCUSDT")]].

(** A chart that loads two rows and is then switched to "24h". *)
Definition switch_to_24h : list ChartExt.Event :=
  [ChartExt.Fetch;
   ChartExt.Settle (Examples.request "BTCUSDT" None) Examples.t2500 Examples.half
     (Chart.Klines [Examples.kline 1000 100; Examples.kline 2000 101]);
   ChartExt.SelectTimeframe "24h"].

End MoreExamples.

Module TrackerExtProps.
Import JS Tracker TrackerExt.

Section WithBuiltins.

Variable parseFloat : option json -> completion number.

Lemma each_ticker_lookup env now ticker acc :
  ticker_throws parseFloat ticker = false ->
  exists timers newPrices,
    each_ticker parseFloat env now ticker acc = (timers, Normal newPrices)
    /\ forall sym,
         newPrices !! sym
         = match entry_of parseFloat env now sym ticker with
           | Some p => Some p
           | None => snd acc !! sym
           end.
Proof.
  intros Hthrows.
  assert (is_null ticker = false) as Hnull by (destruct ticker; [discriminate|..]; reflexivity).
  assert (match find_crypto (member ticker "s") with
          | Some _ =>
              unreadable parseFloat (member ticker "c")
              || unreadable parseFloat (member ticker "P")
          | None => false
          end = false) as Hfields
    by (destruct ticker; [discriminate|..]; exact Hthrows).
  unfold each_ticker, entry_of. unfold_bind.
  rewrite !(TrackerProps.prop_member ticker) by exact Hnull.
  destruct (find_crypto (member ticker "s")) as [crypto|].
  - apply orb_false_iff in Hfields as [Hc HP]. unfold unreadable in Hc, HP.
    destruct (parseFloat (member ticker "c")) as [c|]; [|discriminate].
    destruct (parseFloat (member ticker "P")) as [change|]; [|discriminate].
    eexists _, _. split; [reflexivity|]. intros sym.
    rewrite lookup_insert. destruct (decide (symbol crypto = sym)); reflexivity.
  - exists (fst acc), (snd acc). split; reflexivity.
Qed.

Lemma forEach_lookup env now data : forall acc,
  existsb (ticker_throws parseFloat) data = false ->
  exists timers newPrices,
    forEach parseFloat env now data acc = (timers, Normal newPrices)
    /\ forall sym,
         newPrices !! sym
         = match latest parseFloat env now sym data with
           | Some p => Some p
           | None => snd acc !! sym
           end.
Proof.
  unfold latest.
  induction data as [|ticker rest IH]; intros acc Hthrows.
  - exists (fst acc), (snd acc). split; reflexivity.
  - simpl in Hthrows. apply orb_false_iff in Hthrows as [Hticker Hrest].
    destruct (each_ticker_lookup env now ticker acc Hticker)
      as (timers' & newPrices' & Hone & Hacc').
    destruct (IH (timers', newPrices') Hrest) as (timers & newPrices & Hfe & Hnew).
    exists timers, newPrices. split; [simpl; rewrite Hone; exact Hfe|].
    intros sym. rewrite Hnew, Hacc'. simpl.
    destruct (entry_of parseFloat env now sym ticker) as [p|]; [|reflexivity].
    rewrite last_cons. destruct (last _); reflexivity.
Qed.

(** The price mapping after an accepted batch. *)
Lemma ws_onmessage_lookup env now data st sym :
  existsb (ticker_throws parseFloat) data = false ->
  prices (ws_onmessage parseFloat env now (Parsed (JArr data)) st) !! sym
  = match latest parseFloat env now sym data with
    | Some p => Some p
    | None => prices st !! sym
    end.
Proof.
  intros Hthrows. unfold ws_onmessage. simpl.
  destruct (forEach_lookup env now data (priceAnimationRefs st, ∅) Hthrows)
    as (timers & newPrices & -> & Hnew).
  simpl in Hnew. case_decide as Hempty; simpl.
  - specialize (Hnew sym). rewrite Hempty, lookup_empty in Hnew.
    destruct (latest _ _ _ _ _); [discriminate|reflexivity].
  - rewrite lookup_union, Hnew, lookup_empty.
    destruct (latest _ _ _ _ _); [|rewrite (left_id_L None _)]; try reflexivity.
    destruct (prices st !! sym); reflexivity.
Qed.

(** The price mapping after a batch that makes the handler throw. *)
Lemma ws_onmessage_discarded_prices env now d st :
  discarded parseFloat d = true ->
  prices (ws_onmessage parseFloat env now d st) = prices st.
Proof.
  unfold ws_onmessage, discarded. destruct d as [|[]]; simpl; auto; try discriminate.
  intros Hthrows.
  destruct (TrackerProps.forEach_throws parseFloat env now items
              (priceAnimationRefs st, ∅) Hthrows) as [m Hm].
  destruct (forEach _ _ _ _ _) as [timers result]. simpl in Hm. subst. reflexivity.
Qed.

Lemma entry_of_tracked env now sym ticker p :
  entry_of parseFloat env now sym ticker = Some p -> sym ∈ tracked.
Proof.
  unfold entry_of, find_crypto.
  destruct (List.find _ CRYPTO_SYMBOLS) as [crypto|] eqn:Hfind; [|discriminate].
  case_decide as Hsym; [|discriminate]. intros _. subst sym.
  apply List.find_some in Hfind as [Hin _].
  unfold tracked. apply list_elem_of_fmap_2, list_elem_of_In, Hin.
Qed.

Lemma latest_tracked env now sym data p :
  latest parseFloat env now sym data = Some p -> sym ∈ tracked.
Proof.
  unfold latest. intros Hlast.
  assert (p ∈ omap (entry_of parseFloat env now sym) data) as Hin.
  { destruct (omap _ data) as [|q l] using rev_ind; [discriminate|].
    rewrite last_snoc in Hlast. injection Hlast as ->.
    apply elem_of_app. right. apply list_elem_of_singleton. reflexivity. }
  apply list_elem_of_omap in Hin as (ticker & _ & Hentry).
  eapply entry_of_tracked, Hentry.
Qed.

(** The keys of the price mapping after a message. *)
Lemma ws_onmessage_keys env now d st sym :
  is_Some (prices (ws_onmessage parseFloat env now d st) !! sym) ->
  is_Some (prices st !! sym) \/ sym ∈ tracked.
Proof.
  destruct (discarded parseFloat d) eqn:Hd.
  - rewrite ws_onmessage_discarded_prices by exact Hd. auto.
  - destruct d as [|[]]; try discriminate. simpl in Hd.
    rewrite ws_onmessage_lookup by exact Hd.
    destruct (latest _ _ _ _ _) as [p|] eqn:Hlatest; [|auto].
    intros _. right. eapply latest_tracked, Hlatest.
Qed.

Lemma ws_onmessage_keeps_keys env now d st sym :
  is_Some (prices st !! sym) ->
  is_Some (prices (ws_onmessage parseFloat env now d st) !! sym).
Proof.
  intros Hsome. destruct (discarded parseFloat d) eqn:Hd.
  - rewrite ws_onmessage_discarded_prices by exact Hd. exact Hsome.
  - destruct d as [|[]]; try discriminate. simpl in Hd.
    rewrite ws_onmessage_lookup by exact Hd.
    destruct (latest _ _ _ _ _); [eauto|exact Hsome].
Qed.

Lemma animation_timer_keys sym' st sym :
  is_Some (prices (animation_timer sym' st) !! sym) <-> is_Some (prices st !! sym).
Proof.
  unfold animation_timer. case_decide; simpl; [|reflexivity].
  apply lookup_alter_is_Some.
Qed.

Lemma step_prices_frame env st ev :
  match ev with
  | Message _ _ | AnimationTimer _ => True
  | _ => prices (step parseFloat env st ev) = prices st
  end.
Proof.
  destruct ev; simpl; auto.
  - unfold connectWebSocket. destruct created; reflexivity.
  - unfold reconnect_timer, connectWebSocket. destruct created; reflexivity.
Qed.

Lemma step_keys env st ev sym :
  is_Some (prices (step parseFloat env st ev) !! sym) ->
  is_Some (prices st !! sym) \/ sym ∈ tracked.
Proof.
  pose proof (step_prices_frame env st ev) as Hframe.
  destruct ev; try (rewrite Hframe; auto).
  - apply ws_onmessage_keys.
  - simpl. rewrite animation_timer_keys. auto.
Qed.

Lemma step_keeps_keys env st ev sym :
  is_Some (prices st !! sym) ->
  is_Some (prices (step parseFloat env st ev) !! sym).
Proof.
  pose proof (step_prices_frame env st ev) as Hframe.
  destruct ev; try (rewrite Hframe; auto).
  - apply ws_onmessage_keeps_keys.
  - simpl. rewrite animation_timer_keys. auto.
Qed.

Lemma steps_keys env evs : forall st sym,
  is_Some (prices (fold_left (step parseFloat env) evs st) !! sym) ->
  is_Some (prices st !! sym) \/ sym ∈ tracked.
Proof.
  induction evs as [|ev evs IH]; simpl; intros st sym Hsome; [auto|].
  destruct (IH _ _ Hsome) as [Hstep|Htracked]; [|auto].
  eapply step_keys, Hstep.
Qed.

Lemma steps_keep_keys env evs : forall st sym,
  is_Some (prices st !! sym) ->
  is_Some (prices (fold_left (step parseFloat env) evs st) !! sym).
Proof.
  induction evs as [|ev evs IH]; simpl; intros st sym Hsome; [exact Hsome|].
  apply IH, step_keeps_keys, Hsome.
Qed.

End WithBuiltins.

(** *** The keys of the price mapping *)

(** In every execution from the first render, every key of the price
    mapping is the symbol of a tracked asset. *)
Theorem price_keys_are_tracked
    (parseFloat : option json -> completion number) (evs : list Event) (sym : string) :
  is_Some (prices (run parseFloat evs) !! sym) -> sym ∈ tracked.
Proof.
  intros Hsome.
  destruct (steps_keys parseFloat mounted evs initial sym Hsome) as [Hinit|Htracked];
    [|exact Htracked].
  simpl in Hinit. rewrite lookup_empty in Hinit. destruct Hinit as [p Hp]. discriminate.
Qed.

Lemma price_keys_are_tracked_witness : "BTCUSDT" ∈ tracked.
Proof.
  apply (price_keys_are_tracked Examples.parseFloat Examples.btc_at_100).
  vm_compute. eexists. reflexivity.
Defined.

(** No event removes a key from the price mapping: a symbol that has a
    snapshot after some events has one after any further events. *)
Theorem price_keys_never_removed
    (parseFloat : option json -> completion number) (evs more : list Event) (sym : string) :
  is_Some (prices (run parseFloat evs) !! sym) ->
  is_Some (prices (run parseFloat (evs ++ more)) !! sym).
Proof.
  intros Hsome. unfold run. rewrite fold_left_app.
  apply steps_keep_keys, Hsome.
Qed.

Lemma price_keys_never_removed_witness :
  is_Some (prices (run Examples.parseFloat (Examples.btc_at_100 ++ MoreExamples.later))
           !! "BTCUSDT").
Proof.
  apply (price_keys_never_removed Examples.parseFloat Examples.btc_at_100
           MoreExamples.later "BTCUSDT").
  vm_compute. eexists. reflexivity.
Defined.

(** *** What a batch stores *)

(** After a batch on which the handler does not throw (no [null] entry,
    and no ticker of a tracked symbol whose [c] or [P] [Number.parseFloat]
    throws on), whatever the closure, every tracked symbol that the batch
    mentions holds the snapshot of its last ticker in the batch, and every
    other entry of the price mapping is what it was (tickers of other
    symbols are ignored). *)
Theorem batch_stores_latest
    (parseFloat : option json -> completion number) (env : Closure) (now : Z)
    (data : list json) (st : State) (sym : string) :
  discarded parseFloat (Parsed (JArr data)) = false ->
  prices (ws_onmessage parseFloat env now (Parsed (JArr data)) st) !! sym
  = match latest parseFloat env now sym data with
    | Some p => Some p
    | None => prices st !! sym
    end.
Proof. apply ws_onmessage_lookup. Qed.

Lemma batch_stores_latest_witness :
  prices (ws_onmessage Examples.parseFloat mounted 7 (Parsed (JArr MoreExamples.batch))
            initial) !! "BTCUSDT"
  = match latest Examples.parseFloat mounted 7 "BTCUSDT" MoreExamples.batch with
    | Some p => Some p
    | None => prices initial !! "BTCUSDT"
    end.
Proof.
  apply (batch_stores_latest Examples.parseFloat mounted 7 MoreExamples.batch initial
           "BTCUSDT").
  reflexivity.
Defined.

(** *** The loading flag, the counter and the timer over an execution *)

Section WithBuiltins.

Variable parseFloat : option json -> completion number.

Lemma animation_timer_flags sym st :
  isLoading (animation_timer sym st) = isLoading st
  /\ reconnectTimeoutRef (animation_timer sym st) = reconnectTimeoutRef st.
Proof. unfold animation_timer. case_decide; split; reflexivity. Qed.

Lemma step_isLoading env st ev :
  isLoading (step parseFloat env st ev)
  = match ev with Open => false | _ => isLoading st end.
Proof.
  destruct ev; simpl; try reflexivity.
  - unfold connectWebSocket. destruct created; reflexivity.
  - apply (TrackerProps.ws_onmessage_frame parseFloat env now event_data st).
  - unfold reconnect_timer, connectWebSocket. destruct created; reflexivity.
  - apply animation_timer_flags.
Qed.

Lemma steps_isLoading_false env evs : forall st,
  isLoading st = false -> isLoading (fold_left (step parseFloat env) evs st) = false.
Proof.
  induction evs as [|ev evs IH]; simpl; intros st Hst; [exact Hst|].
  apply IH. rewrite step_isLoading. destruct ev; auto.
Qed.

Lemma steps_isLoading env evs : forall st,
  isLoading st = true ->
  (isLoading (fold_left (step parseFloat env) evs st) = true <-> Open ∉ evs).
Proof.
  induction evs as [|ev evs IH]; simpl; intros st Hst.
  - split; [intros _; apply not_elem_of_nil|auto].
  - rewrite not_elem_of_cons.
    assert (ev = Open \/ ev <> Open) as [->|Hev]
      by (destruct ev; auto; right; discriminate).
    + rewrite steps_isLoading_false by reflexivity. split; [discriminate|tauto].
    + rewrite IH.
      * split; [intros H; split; [congruence|exact H]|tauto].
      * rewrite step_isLoading. destruct ev; auto; congruence.
Qed.

Lemma steps_attempts env tail : forall st,
  forallb (fun ev => negb (resets ev)) tail = true ->
  connectionAttempts (fold_left (step parseFloat env) tail st)
  = (connectionAttempts st + length (List.filter is_timer tail))%nat.
Proof.
  induction tail as [|ev tail IH]; simpl; intros st Hno; [lia|].
  apply andb_true_iff in Hno as [Hev Htail].
  rewrite IH by exact Htail.
  destruct ev; try discriminate; simpl; try lia.
  - unfold connectWebSocket. destruct created; simpl; lia.
  - pose proof (TrackerProps.ws_onmessage_frame parseFloat env now event_data st)
      as (_ & -> & _). lia.
  - unfold reconnect_timer, connectWebSocket. destruct created; simpl; lia.
  - rewrite TrackerProps.animation_timer_frame. lia.
Qed.

Definition short_delay (t : option Z) : Prop :=
  t = None \/ t = Some 1000 \/ t = Some 5000.

Lemma step_short_delay st ev :
  short_delay (reconnectTimeoutRef st) ->
  short_delay (reconnectTimeoutRef (step parseFloat mounted st ev)).
Proof.
  unfold short_delay. intros Hst. destruct ev; simpl; auto.
  - unfold connectWebSocket. destruct created; simpl; auto.
  - pose proof (TrackerProps.ws_onmessage_frame parseFloat mounted now event_data st)
      as (_ & _ & _ & ->). exact Hst.
  - unfold reconnect_timer, connectWebSocket. destruct created; simpl; auto.
  - destruct (animation_timer_flags sym st) as [_ ->]. exact Hst.
Qed.

Lemma steps_short_delay evs : forall st,
  short_delay (reconnectTimeoutRef st) ->
  short_delay (reconnectTimeoutRef (fold_left (step parseFloat mounted) evs st)).
Proof.
  induction evs as [|ev evs IH]; simpl; intros st Hst; [exact Hst|].
  apply IH, step_short_delay, Hst.
Qed.

End WithBuiltins.

(** In every execution from the first render, the loading flag of the page
    (the skeleton cards) is up exactly as long as no open of the stream has
    occurred: it never comes back after the first open, and it never goes
    down without one. *)
Theorem isLoading_until_first_open
    (parseFloat : option json -> completion number) (evs : list Event) :
  isLoading (run parseFloat evs) = true <-> Open ∉ evs.
Proof. apply steps_isLoading. reflexivity. Qed.

(** After an open or a manual reconnect, and as long as neither occurs
    again, the attempt counter is the number of times the reconnect timer
    has fired since. *)
Theorem attempts_count_timers_since_reset
    (parseFloat : option json -> completion number) (evs : list Event) (ev : Event)
    (tail : list Event) :
  resets ev = true ->
  forallb (fun ev => negb (resets ev)) tail = true ->
  connectionAttempts (run parseFloat (evs ++ ev :: tail))
  = length (List.filter is_timer tail).
Proof.
  intros Hev Htail. unfold run. rewrite fold_left_app. simpl.
  rewrite steps_attempts by exact Htail.
  destruct ev; try discriminate; reflexivity.
Qed.

Lemma attempts_count_timers_since_reset_witness :
  connectionAttempts
    (run Examples.parseFloat (Examples.retries 2 ++ Open :: MoreExamples.three_retries))
  = length (List.filter is_timer MoreExamples.three_retries).
Proof.
  apply (attempts_count_timers_since_reset Examples.parseFloat (Examples.retries 2) Open
           MoreExamples.three_retries).
  - reflexivity.
  - reflexivity.
Defined.

(** In every execution from the first render, the delay of the pending
    reconnect timer, when there is one, is 1000 ms (armed by a close) or
    5000 ms (armed when the constructor of the socket throws): neither
    delay grows with the attempts. *)
Theorem reconnect_delay_never_grows
    (parseFloat : option json -> completion number) (evs : list Event) :
  reconnectTimeoutRef (run parseFloat evs) = None
  \/ reconnectTimeoutRef (run parseFloat evs) = Some 1000
  \/ reconnectTimeoutRef (run parseFloat evs) = Some 5000.
Proof. apply (steps_short_delay parseFloat evs initial). left. reflexivity. Qed.

(** *** The direction timers *)

Lemma ws_onmessage_mounted_timers (parseFloat : option json -> completion number)
    (now : Z) (d : parsed) (st : State) :
  priceAnimationRefs (ws_onmessage parseFloat mounted now d st) = priceAnimationRefs st.
Proof.
  unfold ws_onmessage. destruct d as [|[]]; simpl; auto.
  pose proof (TrackerProps.forEach_mounted_timers parseFloat now items
                (priceAnimationRefs st, ∅)) as Ht.
  destruct (forEach _ _ _ _ _) as [timers [newPrices|message]]; simpl in *; subst; auto.
  case_decide; reflexivity.
Qed.

Lemma step_no_timers (parseFloat : option json -> completion number) (st : State) (ev : Event) :
  priceAnimationRefs st = ∅ ->
  priceAnimationRefs (step parseFloat mounted st ev) = ∅.
Proof.
  intros Hst. destruct ev; simpl; auto.
  - unfold connectWebSocket. destruct created; exact Hst.
  - rewrite ws_onmessage_mounted_timers. exact Hst.
  - unfold reconnect_timer, connectWebSocket. destruct created; exact Hst.
  - unfold animation_timer. case_decide as Hin; [|exact Hst].
    rewrite Hst in Hin. apply not_elem_of_empty in Hin. contradiction.
Qed.

(** In every execution from the first render, no direction timer is ever
    armed: the 2000 ms reset of lines 74 to 88 never runs, for any sequence
    of messages. *)
Theorem no_direction_timer_is_ever_armed
    (parseFloat : option json -> completion number) (evs : list Event) :
  priceAnimationRefs (run parseFloat evs) = ∅.
Proof.
  unfold run. assert (priceAnimationRefs initial = ∅) as Hinit by reflexivity.
  revert Hinit. generalize initial.
  induction evs as [|ev evs IH]; simpl; intros st Hst; [exact Hst|].
  apply IH, step_no_timers, Hst.
Qed.

(** *** The chart opened from the page *)



End TrackerExtProps.

Module ChartExtProps.
Import JS Chart ChartExt.

(** *** The view over an execution *)

(** Something other than the "no data" panel is shown. *)
Definition shown (st : State) : Prop :=
  loading st = true
  \/ (exists a message, error st = Some (String a message))
  \/ chartData st <> [].

Lemma shown_view (st : State) : shown st -> view st <> NoData.
Proof.
  unfold view. intros [Hl|[(a & m & He)|Hc]].
  - rewrite Hl. discriminate.
  - rewrite He. destruct (loading st); discriminate.
  - destruct (loading st); [discriminate|].
    destruct (error st) as [[|a m]|]; try discriminate;
      destruct (chartData st); congruence.
Qed.

Lemma sampleData_not_empty fl random now currentPrice :
  sampleData fl random now currentPrice <> [].
Proof. unfold sampleData. cbn [sample_loop]. discriminate. Qed.

Section WithBuiltins.

Variable fl : Q -> Q.
Variable parseFloat : option json -> completion number.

Lemma formattedData_not_empty response data :
  formattedData parseFloat response = Normal data -> data <> [].
Proof.
  destruct response as [| | |[|k rest]]; try discriminate.
  simpl. unfold_bind.
  destruct (format parseFloat k); [|discriminate].
  destruct (map_format parseFloat rest); [|discriminate].
  intros [= <-]. discriminate.
Qed.

Lemma settle_shown req now random response st :
  shown (fetchHistoricalData_settle fl parseFloat req now random response st).
Proof.
  unfold shown, fetchHistoricalData_settle.
  destruct (formattedData parseFloat response) as [data|message] eqn:Hf.
  - right. right. simpl. eapply formattedData_not_empty, Hf.
  - unfold catch. destruct (r_currentPrice req) as [p|].
    + destruct (truthy p).
      * right. right. cbn [setLoading setError setChartData chartData].
        apply sampleData_not_empty.
      * right. left. eexists _, _. reflexivity.
    + right. left. eexists _, _. reflexivity.
Qed.

Lemma ws_onmessage_shown now d st :
  shown st -> shown (ws_onmessage parseFloat now d st).
Proof.
  intros Hst.
  destruct (ChartProps.ws_onmessage_cases parseFloat now d st)
    as [->|(point & _ & ->)]; [exact Hst|].
  right. right. simpl. intros Hnil. apply app_eq_nil in Hnil as [_ Hnil]. discriminate.
Qed.

Lemma step_shown st ev : shown st -> shown (step fl parseFloat st ev).
Proof.
  intros Hst. destruct ev; simpl.
  - left. reflexivity.
  - apply settle_shown.
  - apply ws_onmessage_shown, Hst.
  - destruct (loading st || String.eqb tf (timeframe st)); [exact Hst|].
    left. reflexivity.
Qed.

Lemma steps_shown evs : forall st,
  shown st -> shown (fold_left (step fl parseFloat) evs st).
Proof.
  induction evs as [|ev evs IH]; simpl; intros st Hst; [exact Hst|].
  apply IH, step_shown, Hst.
Qed.

Lemma step_timeframe st ev :
  timeframe st ∈ timeframes ->
  match ev with SelectTimeframe tf => tf ∈ timeframes | _ => True end ->
  timeframe (step fl parseFloat st ev) ∈ timeframes.
Proof.
  intros Hst Hev. destruct ev; simpl; try exact Hst.
  - unfold fetchHistoricalData_settle.
    destruct (formattedData parseFloat response); [exact Hst|].
    unfold catch. destruct (r_currentPrice req) as [p|]; [destruct (truthy p)|]; exact Hst.
  - destruct (ChartProps.ws_onmessage_cases parseFloat now event_data st)
      as [->|(point & _ & ->)]; exact Hst.
  - destruct (loading st || String.eqb tf (timeframe st)); [exact Hst|exact Hev].
Qed.

(** What live messages leave alone. *)
Lemma live_flags messages : forall st,
  loading (live parseFloat messages st) = loading st
  /\ error (live parseFloat messages st) = error st
  /\ timeframe (live parseFloat messages st) = timeframe st.
Proof.
  induction messages as [|[now d] rest IH]; simpl; intros st; [auto|].
  destruct (IH (ws_onmessage parseFloat now d st)) as (-> & -> & ->).
  destruct (ChartProps.ws_onmessage_cases parseFloat now d st)
    as [->|(point & _ & ->)]; auto.
Qed.

End WithBuiltins.

(** In every execution from the first render, the card never shows the
    "No chart data available" panel with its Load Data button: the chart is
    loading, or shows an error, or has bars. *)
Theorem no_data_panel_is_never_shown
    (fl : Q -> Q) (parseFloat : option json -> completion number) (evs : list Event) :
  view (run fl parseFloat evs) <> NoData.
Proof.
  apply shown_view, (steps_shown fl parseFloat evs initial). left. reflexivity.
Qed.

(** In every execution from the first render in which the timeframe
    buttons carry the four timeframes of the selector, the timeframe of the
    chart is one of the four. *)
Theorem timeframe_is_of_the_selector
    (fl : Q -> Q) (parseFloat : option json -> completion number) (evs : list Event) :
  Forall (fun ev => match ev with SelectTimeframe tf => tf ∈ timeframes | _ => True end)
         evs ->
  timeframe (run fl parseFloat evs) ∈ timeframes.
Proof.
  unfold run. assert (timeframe initial ∈ timeframes) as Hinit
    by (apply elem_of_cons; left; reflexivity).
  revert Hinit. generalize initial.
  induction evs as [|ev evs IH]; simpl; intros st Hst Hevs; [exact Hst|].
  apply Forall_cons in Hevs as [Hev Hevs].
  apply IH; [|exact Hevs]. apply step_timeframe; assumption.
Qed.

Lemma timeframe_is_of_the_selector_witness :
  timeframe (run exact Examples.parseFloat MoreExamples.switch_to_24h) ∈ timeframes.
Proof.
  apply (timeframe_is_of_the_selector exact Examples.parseFloat MoreExamples.switch_to_24h).
  repeat constructor.
Defined.

(** While the card shows the spinner or the error panel, live messages do
    not change what the card shows in the place of the plot (lines 414 to
    429): the spinner stays, and the error panel stays with its message.
    The bars they append are not plotted until a load clears the panel;
    the header and the footer, which are rendered outside this conditional,
    are not covered by [view]. *)
Theorem live_updates_stay_behind_the_panel
    (parseFloat : option json -> completion number) (messages : list (Z * parsed))
    (st : State) :
  view st = Spinner \/ (exists message, view st = ErrorPanel message) ->
  view (live parseFloat messages st) = view st.
Proof.
  intros Hpanel. unfold view in *.
  destruct (live_flags parseFloat messages st) as (-> & -> & _).
  destruct (loading st); [reflexivity|].
  destruct (error st) as [[|a m]|]; try reflexivity;
    destruct (chartData st) as [|d bars];
    destruct Hpanel as [Hp|[message Hp]]; discriminate.
Qed.

Lemma live_updates_stay_behind_the_panel_witness :
  view (live Examples.parseFloat Examples.two_ticks
          (fetchHistoricalData_settle exact Examples.parseFloat
             (Examples.request "BTCUSDT" None) Examples.t2500 Examples.half
             (NotOk 500) initial))
  = view (fetchHistoricalData_settle exact Examples.parseFloat
            (Examples.request "BTCUSDT" None) Examples.t2500 Examples.half
            (NotOk 500) initial).
Proof.
  apply (live_updates_stay_behind_the_panel Examples.parseFloat Examples.two_ticks).
  right. eexists. vm_compute. reflexivity.
Defined.

(** *** The live window *)

(** A live message on which the handler does not throw (a value other
    than [null] whose five fields [Number.parseFloat] reads) leaves
    [min (n, maxPoints - 1) + 1] bars, where [n] is the number of bars
    before it: the last bars of the sequence, in their order, and the new
    bar.  A sequence longer than the window (the bars of a wider timeframe)
    is cut down by the first such message. *)
Theorem live_window_length
    (parseFloat : option json -> completion number) (now : Z) (ticker : json) (st : State) :
  discarded parseFloat (Parsed ticker) = false ->
  length (chartData (ws_onmessage parseFloat now (Parsed ticker) st))
  = S (Nat.min (length (chartData st)) (maxPoints (timeframe st) - 1))
  /\ exists kept point,
       chartData (ws_onmessage parseFloat now (Parsed ticker) st) = kept ++ [point]
       /\ kept `suffix_of` chartData st.
Proof.
  intros Hd.
  destruct (ChartProps.newDataPoint_not_discarded parseFloat now ticker Hd)
    as [point Hpoint].
  rewrite (ChartProps.ws_onmessage_append parseFloat now ticker point st Hpoint).
  cbn [setChartData chartData].
  pose proof (ChartProps.maxPoints_ge (timeframe st)) as Hge.
  split.
  - rewrite length_app. unfold slice_last.
    destruct (Nat.eqb_spec (maxPoints (timeframe st) - 1) 0) as [Hz|_]; [lia|].
    rewrite length_drop. simpl. lia.
  - exists (slice_last (maxPoints (timeframe st) - 1) (chartData st)), point.
    split; [reflexivity|].
    destruct (ChartProps.slice_last_suffix (maxPoints (timeframe st) - 1) (chartData st))
      as [pre Hpre].
    exists pre. exact Hpre.
Qed.

Lemma live_window_length_witness :
  length (chartData (ws_onmessage Examples.parseFloat Examples.t2500
                       (Parsed (Examples.ticker 101)) (Examples.month 180)))
  = S (Nat.min (length (chartData (Examples.month 180)))
               (maxPoints (timeframe (Examples.month 180)) - 1))
  /\ exists kept point,
       chartData (ws_onmessage Examples.parseFloat Examples.t2500
                    (Parsed (Examples.ticker 101)) (Examples.month 180))
       = kept ++ [point]
       /\ kept `suffix_of` chartData (Examples.month 180).
Proof.
  apply (live_window_length Examples.parseFloat Examples.t2500 (Examples.ticker 101)
           (Examples.month 180)).
  reflexivity.
Defined.

(** *** The header of the chart *)







(** *** The bars of the placeholder series *)

(** A volume in [0, 1000000). *)
Definition plausible_volume (d : ChartData) : Prop :=
  exists v, volume d = Num v /\ (0 <= v < 1000000)%Q.

Lemma placeholder_step (q r r1 r2 : Q) :
  (0 < q)%Q -> (0 <= r < 1)%Q -> (0 <= r1 < 1)%Q -> (0 <= r2 < 1)%Q ->
  let c := (q * (1 + (r - 0.5) * 0.02))%Q in
  let h := (Qmax q c * (1 + r1 * 0.01))%Q in
  let l := (Qmin q c * (1 - r2 * 0.01))%Q in
  (0 < c)%Q /\ (0 < l)%Q /\ (l <= q)%Q /\ (l <= c)%Q /\ (q <= h)%Q /\ (c <= h)%Q.
Proof.
  intros Hq Hr Hr1 Hr2 c h l.
  assert (0 < c)%Q as Hc by (unfold c; nra).
  pose proof (Q.le_min_l q c) as Hm1. pose proof (Q.le_min_r q c) as Hm2.
  pose proof (Q.le_max_l q c) as HM1. pose proof (Q.le_max_r q c) as HM2.
  assert (0 < Qmin q c)%Q as Hm0
    by (destruct (Q.min_spec q c) as [[_ ->]|[_ ->]]; assumption).
  unfold h, l. fold c.
  generalize dependent (Qmin q c). generalize dependent (Qmax q c).
  intros M HM1 HM2 m Hm1 Hm2 Hm0.
  repeat split; try assumption; nra.
Qed.

Lemma sample_loop_candles random now n :
  (forall i, (0 <= random i < 1)%Q) ->
  forall k q, (0 < q)%Q ->
  Forall (fun d => well_formed d /\ plausible_volume d)
         (sample_loop exact random now n k (Num q))
  /\ chained (Num q) (sample_loop exact random now n k (Num q)).
Proof.
  intros Hrandom. induction n as [|n IH]; intros k q Hq.
  - split; [constructor|exact I].
  - destruct (placeholder_step q (random k) (random (k + 1)%nat) (random (k + 2)%nat)
                Hq (Hrandom _) (Hrandom _) (Hrandom _))
      as (Hc & Hl & Hlq & Hlc & Hqh & Hch).
    destruct (IH (k + 4)%nat _ Hc) as [Hrest Hchain].
    split; [constructor; [split|exact Hrest]|split; [reflexivity|exact Hchain]].
    + eexists _, _, _, _.
      repeat split; try reflexivity; assumption.
    + eexists. split; [reflexivity|].
      destruct (Hrandom (k + 3)%nat). unfold exact. split; nra.
Qed.

(** In exact arithmetic, for a positive current price and draws of
    [Math.random] in [0, 1), every bar of the placeholder series is a
    candle of positive prices with [low <= open, close <= high] and a
    volume in [0, 1000000), the first bar opens at the current price and
    every other bar opens at the close of the bar before it. *)
Theorem sampleData_candles (random : nat -> Q) (now : Z) (q : Q) :
  (0 < q)%Q ->
  (forall i, (0 <= random i < 1)%Q) ->
  Forall (fun d => well_formed d /\ plausible_volume d) (sampleData exact random now (Num q))
  /\ chained (Num q) (sampleData exact random now (Num q)).
Proof. intros Hq Hrandom. apply sample_loop_candles; assumption. Qed.

Lemma sampleData_candles_witness :
  Forall (fun d => well_formed d /\ plausible_volume d)
         (sampleData exact Examples.quarters Examples.t2500 (Num 100))
  /\ chained (Num 100) (sampleData exact Examples.quarters Examples.t2500 (Num 100)).
Proof.
  apply (sampleData_candles Examples.quarters Examples.t2500 100).
  - reflexivity.
  - apply ChartProps.quarters_range.
Defined.

(** *** The shapes of the candlestick chart *)

Lemma truthy_positive (q : Q) : (0 < q)%Q -> truthy (Num q) = true.
Proof.
  intros Hq. unfold truthy. destruct (Qeq_bool q 0) eqn:Hz; [|reflexivity].
  apply Qeq_bool_iff in Hz. lra.
Qed.

Lemma fold_min_Num (l : list number) : forall a,
  Forall (fun n => exists v, n = Num v) l ->
  exists m, fold_left Math_min l (Num a) = Num m
            /\ (m <= a)%Q /\ Forall (fun n => exists v, n = Num v /\ (m <= v)%Q) l.
Proof.
  induction l as [|n l IH]; intros a Hl; simpl.
  - exists a. repeat split; [lra|constructor].
  - apply Forall_cons in Hl as [[v ->] Hl].
    destruct (IH (Qmin a v) Hl) as (m & Hm & Hle & Hall).
    exists m. split; [exact Hm|].
    pose proof (Q.le_min_l a v). pose proof (Q.le_min_r a v).
    split; [lra|]. constructor; [|exact Hall]. exists v. split; [reflexivity|lra].
Qed.

Lemma fold_max_Num (l : list number) : forall a,
  Forall (fun n => exists v, n = Num v) l ->
  exists m, fold_left Math_max l (Num a) = Num m
            /\ (a <= m)%Q /\ Forall (fun n => exists v, n = Num v /\ (v <= m)%Q) l.
Proof.
  induction l as [|n l IH]; intros a Hl; simpl.
  - exists a. repeat split; [lra|constructor].
  - apply Forall_cons in Hl as [[v ->] Hl].
    destruct (IH (Qmax a v) Hl) as (m & Hm & Hle & Hall).
    exists m. split; [exact Hm|].
    pose proof (Q.le_max_l a v). pose proof (Q.le_max_r a v).
    split; [lra|]. constructor; [|exact Hall]. exists v. split; [reflexivity|lra].
Qed.

Lemma Math_min_all_Num (l : list number) :
  l <> [] -> Forall (fun n => exists v, n = Num v) l ->
  exists m, Math_min_all l = Num m /\ Forall (fun n => exists v, n = Num v /\ (m <= v)%Q) l.
Proof.
  destruct l as [|n l]; [congruence|]. intros _ Hl.
  apply Forall_cons in Hl as [[a ->] Hl]. simpl.
  destruct (fold_min_Num l a Hl) as (m & Hm & Hle & Hall).
  exists m. split; [exact Hm|]. constructor; [eauto|exact Hall].
Qed.

Lemma Math_max_all_Num (l : list number) :
  l <> [] -> Forall (fun n => exists v, n = Num v) l ->
  exists m, Math_max_all l = Num m /\ Forall (fun n => exists v, n = Num v /\ (v <= m)%Q) l.
Proof.
  destruct l as [|n l]; [congruence|]. intros _ Hl.
  apply Forall_cons in Hl as [[a ->] Hl]. simpl.
  destruct (fold_max_Num l a Hl) as (m & Hm & Hle & Hall).
  exists m. split; [exact Hm|]. constructor; [eauto|exact Hall].
Qed.

(** The extremes of a chart of well-formed candles. *)
Lemma price_range_well_formed (bars : list ChartData) (p : ChartData) :
  Forall well_formed bars -> p ∈ bars ->
  exists m M l h,
    minPrice bars = Num m /\ maxPrice bars = Num M
    /\ low p = Num l /\ high p = Num h /\ (m <= l)%Q /\ (h <= M)%Q.
Proof.
  intros Hwf Hp.
  assert (bars <> []) as Hne by (intros ->; apply elem_of_nil in Hp; exact Hp).
  destruct (Math_min_all_Num ((fun d => or_number (low d) (price d)) <$> bars))
    as (m & Hm & Hmall).
  { intros H. apply fmap_nil_inv in H. contradiction. }
  { apply Forall_fmap. eapply Forall_impl; [exact Hwf|].
    intros d (o & h & l & c & _ & _ & Hl & _ & _ & Hl0 & _). simpl.
    unfold or_number. rewrite Hl, truthy_positive by exact Hl0. eauto. }
  destruct (Math_max_all_Num ((fun d => or_number (high d) (price d)) <$> bars))
    as (M & HM & HMall).
  { intros H. apply fmap_nil_inv in H. contradiction. }
  { apply Forall_fmap. eapply Forall_impl; [exact Hwf|].
    intros d (o & h & l & c & _ & Hh & _ & _ & _ & Hl0 & Hlo & _ & Hoh & _). simpl.
    unfold or_number. rewrite Hh, truthy_positive by lra. eauto. }
  rewrite Forall_fmap, Forall_forall in Hmall, HMall.
  rewrite Forall_forall in Hwf.
  destruct (Hwf p Hp) as (o & h & l & c & _ & Hh & Hl & _ & _ & Hl0 & Hlo & _ & Hoh & _).
  destruct (Hmall p Hp) as (v & Hv & Hmv). destruct (HMall p Hp) as (w & Hw & HwM).
  simpl in Hv, Hw. unfold or_number in Hv, Hw.
  rewrite Hl, truthy_positive in Hv by exact Hl0.
  rewrite Hh, truthy_positive in Hw by lra.
  injection Hv as <-. injection Hw as <-.
  exists m, M, l, h. auto 7.
Qed.

(** Where a price is drawn: [y + ((maxPrice - v) / priceRange) * height]. *)
Lemma at_price_bounds (m M yy hh v w : Q) :
  (m < M)%Q -> (0 <= hh)%Q -> (m <= v)%Q -> (v <= w)%Q -> (w <= M)%Q ->
  (yy <= yy + (M - w) / (M - m) * hh)%Q
  /\ (yy + (M - w) / (M - m) * hh <= yy + (M - v) / (M - m) * hh)%Q
  /\ (yy + (M - v) / (M - m) * hh <= yy + hh)%Q.
Proof.
  intros HR Hh Hmv Hvw HwM. unfold Qdiv.
  assert (0 < / (M - m))%Q as Hi by (apply Qinv_lt_0_compat; lra).
  assert ((M - m) * / (M - m) == 1)%Q as Hone by (apply Qmult_inv_r; lra).
  generalize dependent (/ (M - m))%Q. intros i Hi Hone.
  assert (0 <= i * hh)%Q as Hih by nra.
  repeat split; nra.
Qed.

(** In a chart of well-formed candles whose price range is positive, the
    candle of a bar of the chart is drawn inside the band
    [[y, y + height]] it is given: the wick runs from [highY] down to
    [lowY], the body starts between them and is at least 1 high: it ends at
    or above [lowY] unless it was raised to that height of 1. *)
Theorem candle_within_band
    (bars : list ChartData) (props : ShapeProps) (p : ChartData) (yy hh : Q) :
  Forall well_formed bars ->
  p ∈ bars ->
  payload props = Some p ->
  gt (maxPrice bars) (minPrice bars) = true ->
  y props = Num yy ->
  height props = Num hh ->
  (0 <= hh)%Q ->
  exists candle hY lY bT bH,
    CandlestickBar bars props = Some candle
    /\ highY candle = Num hY /\ lowY candle = Num lY
    /\ bodyTop candle = Num bT /\ bodyHeight candle = Num bH
    /\ (yy <= hY)%Q /\ (hY <= bT)%Q /\ (bT <= lY)%Q /\ (lY <= yy + hh)%Q
    /\ (1 <= bH)%Q /\ ((bT + bH <= lY)%Q \/ (bH == 1)%Q).
Proof.
  intros Hwf Hp Hpayload Hrange Hy Hheight Hhh.
  destruct (price_range_well_formed bars p Hwf Hp)
    as (m & M & l & h & Hm & HM & Hl & Hh & Hml & HhM).
  rewrite Forall_forall in Hwf.
  destruct (Hwf p Hp) as (o & h' & l' & c & Ho & Hh' & Hl' & Hc & _ & Hl0 & Hlo & Hlc & Hoh & Hch).
  rewrite Hh in Hh'. rewrite Hl in Hl'. injection Hh' as <-. injection Hl' as <-.
  rewrite Hm, HM in Hrange. unfold gt in Hrange.
  assert (m < M)%Q as HR.
  { apply Qnot_le_lt. intros H. apply Qle_bool_iff in H. rewrite H in Hrange. discriminate. }
  unfold CandlestickBar. rewrite Hpayload, Ho, Hh, Hl, Hc, Hm, HM, Hy, Hheight.
  rewrite !truthy_positive by lra.
  unfold sub, add, mul, div, Math_min, Math_max.
  destruct (Qeq_bool (M - m) 0) eqn:Hz; [apply Qeq_bool_iff in Hz; lra|].
  cbv beta iota zeta. cbn [andb].
  eexists _, _, _, _, _. split; [reflexivity|]. cbn [highY lowY bodyTop bodyHeight].
  split; [reflexivity|]. split; [reflexivity|]. split; [reflexivity|].
  split; [reflexivity|].
  destruct (at_price_bounds m M yy hh o h HR Hhh) as (Hh1 & Hho & _); try lra.
  destruct (at_price_bounds m M yy hh c h HR Hhh) as (_ & Hhc & _); try lra.
  destruct (at_price_bounds m M yy hh l o HR Hhh) as (_ & Hol & Hl1); try lra.
  destruct (at_price_bounds m M yy hh l c HR Hhh) as (_ & Hcl & _); try lra.
  set (aH := (yy + (M - h) / (M - m) * hh)%Q) in *.
  set (aL := (yy + (M - l) / (M - m) * hh)%Q) in *.
  set (aO := (yy + (M - o) / (M - m) * hh)%Q) in *.
  set (aC := (yy + (M - c) / (M - m) * hh)%Q) in *.
  pose proof (Q.le_min_l aO aC) as Hmin1.
  assert (aH <= Qmin aO aC)%Q as Hmin2 by (apply Q.min_glb; assumption).
  assert (Qmax aO aC <= aL)%Q as Hmax by (apply Q.max_lub; assumption).
  pose proof (Q.le_max_r (Qmax aO aC - Qmin aO aC) 1) as Hone.
  repeat split; try assumption; try lra.
  destruct (Q.max_spec (Qmax aO aC - Qmin aO aC) 1) as [[_ Heq]|[_ Heq]].
  - right. exact Heq.
  - left. rewrite Heq. lra.
Qed.

Lemma candle_within_band_witness :
  exists candle hY lY bT bH,
    CandlestickBar MoreExamples.two_bars MoreExamples.first_shape = Some candle
    /\ highY candle = Num hY /\ lowY candle = Num lY
    /\ bodyTop candle = Num bT /\ bodyHeight candle = Num bH
    /\ (50 <= hY)%Q /\ (hY <= bT)%Q /\ (bT <= lY)%Q /\ (lY <= 50 + 200)%Q
    /\ (1 <= bH)%Q /\ ((bT + bH <= lY)%Q \/ (bH == 1)%Q).
Proof.
  apply (candle_within_band MoreExamples.two_bars MoreExamples.first_shape
           (Examples.bar 1000 100) 50 200).
  - repeat constructor; eexists _, _, _, _;
      repeat split; try reflexivity; discriminate.
  - apply elem_of_cons. left. reflexivity.
  - reflexivity.
  - reflexivity.
  - reflexivity.
  - reflexivity.
  - discriminate.
Defined.

Lemma sub_NaN_r (n : number) : sub n NaN = NaN.
Proof. destruct n; reflexivity. Qed.

Lemma div_NaN_r (n : number) : div n NaN = NaN.
Proof. destruct n; reflexivity. Qed.

Lemma Math_min_NaN_r (n : number) : Math_min n NaN = NaN.
Proof. destruct n as [| |[]]; reflexivity. Qed.

Lemma fold_min_NaN (l : list number) : fold_left Math_min l NaN = NaN.
Proof. induction l as [|n l IH]; simpl; [reflexivity|exact IH]. Qed.

Lemma Math_min_all_NaN (l : list number) : NaN ∈ l -> Math_min_all l = NaN.
Proof.
  unfold Math_min_all. generalize (Infinity false).
  induction l as [|n l IH]; intros a Hin.
  - apply elem_of_nil in Hin. contradiction.
  - simpl. apply elem_of_cons in Hin as [<-|Hin].
    + rewrite Math_min_NaN_r. apply fold_min_NaN.
    + apply IH, Hin.
Qed.

(** A chart that holds a bar whose [low] and [price] are [NaN] draws no
    candle with a position. *)
Lemma CandlestickBar_NaN (bars : list ChartData) (d : ChartData) (props : ShapeProps) :
  d ∈ bars -> low d = NaN -> price d = NaN ->
  match CandlestickBar bars props with
  | Some candle =>
      highY candle = NaN /\ lowY candle = NaN
      /\ bodyTop candle = NaN /\ bodyHeight candle = NaN
  | None => True
  end.
Proof.
  intros Hd Hlow Hprice.
  assert (minPrice bars = NaN) as Hmin.
  { apply Math_min_all_NaN. apply list_elem_of_fmap. exists d.
    split; [|exact Hd]. unfold or_number. rewrite Hlow, Hprice. reflexivity. }
  unfold CandlestickBar. destruct (payload props) as [p|]; [|exact I].
  destruct (truthy (open p) && truthy (high p) && truthy (low p) && truthy (close p));
    [|exact I].
  cbn [highY lowY bodyTop bodyHeight]. rewrite Hmin, sub_NaN_r, !div_NaN_r.
  assert (forall n, mul NaN n = NaN) as Hmul by (intros n; reflexivity).
  assert (forall n, add n NaN = NaN) as Hadd by (intros n; destruct n; reflexivity).
  rewrite !Hmul, !Hadd.
  repeat split; reflexivity.
Qed.

(** After a live message on which the handler does not throw and whose
    payload lacks the fields [l] and [c] (which [Number.parseFloat] reads
    as [NaN]), no candle of the chart has a position: [highY], [lowY],
    [bodyTop] and [bodyHeight] of every candle that is drawn are [NaN], for
    the good bars too. *)
Theorem field_less_payload_blanks_the_candles
    (parseFloat : option json -> completion number) (now : Z) (ticker : json) (st : State)
    (props : ShapeProps) :
  discarded parseFloat (Parsed ticker) = false ->
  parseFloat None = Normal NaN ->
  member ticker "l" = None ->
  member ticker "c" = None ->
  match CandlestickBar (chartData (ws_onmessage parseFloat now (Parsed ticker) st)) props with
  | Some candle =>
      highY candle = NaN /\ lowY candle = NaN
      /\ bodyTop candle = NaN /\ bodyHeight candle = NaN
  | None => True
  end.
Proof.
  intros Hd Hnan Hl Hc.
  destruct (ChartProps.newDataPoint_readable parseFloat now ticker Hd)
    as (c & v & o & h & l & Hc' & _ & _ & _ & Hl' & Hpoint).
  rewrite Hc, Hnan in Hc'. rewrite Hl, Hnan in Hl'.
  injection Hc' as <-. injection Hl' as <-.
  rewrite (ChartProps.ws_onmessage_append parseFloat now ticker _ st Hpoint).
  cbn [setChartData chartData].
  eapply CandlestickBar_NaN.
  - apply elem_of_app. right. apply list_elem_of_singleton. reflexivity.
  - reflexivity.
  - reflexivity.
Qed.

Lemma field_less_payload_blanks_the_candles_witness :
  match CandlestickBar
          (chartData (ws_onmessage Examples.parseFloat Examples.t2500 (Parsed (JObj []))
                        (Examples.chart MoreExamples.two_bars)))
          MoreExamples.first_shape with
  | Some candle =>
      highY candle = NaN /\ lowY candle = NaN
      /\ bodyTop candle = NaN /\ bodyHeight candle = NaN
  | None => True
  end.
Proof.
  apply (field_less_payload_blanks_the_candles Examples.parseFloat Examples.t2500
           (JObj []) (Examples.chart MoreExamples.two_bars) MoreExamples.first_shape).
  - reflexivity.
  - reflexivity.
  - reflexivity.
  - reflexivity.
Defined.

(** A number that is at least [v]. *)
Definition at_least (v : Q) (n : number) : Prop :=
  match n with
  | Num M => (v <= M)%Q
  | Infinity false => True
  | _ => False
  end.

Lemma Math_max_not_NaN (a n : number) : a <> NaN -> n <> NaN -> Math_max a n <> NaN.
Proof. destruct a as [| |[]], n as [| |[]]; simpl; congruence. Qed.

Lemma Math_max_at_least (v : Q) (a n : number) :
  at_least v a -> n <> NaN -> at_least v (Math_max a n).
Proof.
  destruct a as [|M|[]], n as [|w|[]]; simpl; try tauto; try congruence.
  intros HM _. pose proof (Q.le_max_l M w). lra.
Qed.

Lemma Math_max_reaches (v : Q) (a : number) :
  a <> NaN -> at_least v (Math_max a (Num v)).
Proof.
  destruct a as [|M|[]]; simpl; try tauto; try congruence.
  - intros _. apply Q.le_max_r.
  - intros _. lra.
Qed.

Lemma fold_max_at_least (v : Q) (l : list number) : forall a,
  at_least v a -> Forall (fun n => n <> NaN) l -> at_least v (fold_left Math_max l a).
Proof.
  induction l as [|n l IH]; simpl; intros a Ha Hl; [exact Ha|].
  apply Forall_cons in Hl as [Hn Hl].
  apply IH; [apply Math_max_at_least; assumption|exact Hl].
Qed.

Lemma fold_max_reaches (v : Q) (l : list number) : forall a,
  a <> NaN -> Forall (fun n => n <> NaN) l -> Num v ∈ l ->
  at_least v (fold_left Math_max l a).
Proof.
  induction l as [|n l IH]; simpl; intros a Ha Hl Hin.
  - apply elem_of_nil in Hin. contradiction.
  - apply Forall_cons in Hl as [Hn Hl]. apply elem_of_cons in Hin as [<-|Hin].
    + apply fold_max_at_least; [apply Math_max_reaches, Ha|exact Hl].
    + apply IH; [apply Math_max_not_NaN; assumption|exact Hl|exact Hin].
Qed.

Lemma or_number_not_NaN (n : number) (q : Q) : or_number n (Num q) <> NaN.
Proof.
  unfold or_number. destruct n as [|r|s]; simpl; try discriminate.
  destruct (negb _); discriminate.
Qed.

(** The greatest volume of a chart is at least the positive volume of any
    of its bars, whatever the other bars hold. *)
Lemma maxVolume_at_least (bars : list ChartData) (p : ChartData) (v : Q) :
  p ∈ bars -> volume p = Num v -> (0 < v)%Q -> at_least v (maxVolume bars).
Proof.
  intros Hp Hv Hpos. unfold maxVolume, Math_max_all.
  apply fold_max_reaches; [discriminate| |].
  - apply Forall_fmap, Forall_forall. intros d _. apply or_number_not_NaN.
  - apply list_elem_of_fmap. exists p. split; [|exact Hp].
    unfold or_number. rewrite Hv, truthy_positive by exact Hpos. reflexivity.
Qed.

(** The volume bar of a bar of the chart with a positive volume, in a band
    of height [height] at [y], is at most 0.8 of the band high and stands
    on the bottom of the band, whatever the volumes of the other bars
    ([NaN] and the infinities included). *)
Theorem volume_bar_within_band
    (bars : list ChartData) (props : ShapeProps) (p : ChartData) (v yy hh : Q) :
  p ∈ bars ->
  payload props = Some p ->
  volume p = Num v ->
  (0 < v)%Q ->
  y props = Num yy ->
  height props = Num hh ->
  (0 <= hh)%Q ->
  exists rect vH vY,
    VolumeBar bars props = Some rect
    /\ volumeHeight rect = Num vH /\ volumeY rect = Num vY
    /\ (0 <= vH)%Q /\ (vH <= 0.8 * hh)%Q
    /\ (vY + vH == yy + hh)%Q.
Proof.
  intros Hp Hpayload Hv Hpos Hy Hheight Hhh.
  pose proof (maxVolume_at_least bars p v Hp Hv Hpos) as HM.
  unfold VolumeBar. rewrite Hpayload, Hv, truthy_positive, Hy, Hheight by exact Hpos.
  destruct (maxVolume bars) as [|M|[]]; simpl in HM; try contradiction.
  - unfold sub, add, mul, div.
    destruct (Qeq_bool M 0) eqn:Hz; [apply Qeq_bool_iff in Hz; lra|].
    eexists _, _, _. split; [reflexivity|]. cbn [volumeHeight volumeY].
    split; [reflexivity|]. split; [reflexivity|].
    unfold Qdiv.
    assert (0 < / M)%Q as Hi by (apply Qinv_lt_0_compat; lra).
    assert (M * / M == 1)%Q as Hone by (apply Qmult_inv_r; lra).
    generalize dependent (/ M)%Q. intros i Hi Hone.
    assert (0 <= v * i)%Q by nra. assert (v * i <= 1)%Q by nra.
    repeat split; nra.
  - unfold sub, add, mul, div.
    eexists _, _, _. split; [reflexivity|]. cbn [volumeHeight volumeY].
    split; [reflexivity|]. split; [reflexivity|].
    repeat split; lra.
Qed.

Lemma volume_bar_within_band_witness :
  exists rect vH vY,
    VolumeBar MoreExamples.two_bars MoreExamples.first_shape = Some rect
    /\ volumeHeight rect = Num vH /\ volumeY rect = Num vY
    /\ (0 <= vH)%Q /\ (vH <= 0.8 * 200)%Q
    /\ (vY + vH == 50 + 200)%Q.
Proof.
  apply (volume_bar_within_band MoreExamples.two_bars MoreExamples.first_shape
           (Examples.bar 1000 100) 1 50 200).
  - apply elem_of_cons. left. reflexivity.
  - reflexivity.
  - reflexivity.
  - reflexivity.
  - reflexivity.
  - reflexivity.
  - discriminate.
Defined.

End ChartExtProps.

(** ** Payloads that are not tickers *)

Module PayloadProps.
Import JS.

(** C9, as stated, fails: the per-symbol handler appends a bar of [NaN]s
    for the payload [{}], and the aggregate handler stores a snapshot with
    a [NaN] price for a ticker that carries only its symbol. *)
Lemma C9_counterexample :
  Chart.chartData (Chart.ws_onmessage Examples.parseFloat 7 (Parsed (JObj [])) Chart.initial)
  = [Examples.nan_bar 7]
  /\ Tracker.price <$>
       (Tracker.prices
          (Tracker.ws_onmessage Examples.parseFloat Tracker.mounted 7
             (Parsed (JArr MoreExamples.bare_batch)) Tracker.initial)
        !! "BTCUSDT")
     = Some NaN.
Proof. vm_compute. split; reflexivity. Qed.

(** C9, amended: for every program state and every inbound stream message
    on which the handler's [try] block throws, the handler leaves the
    entire state unchanged: the price mapping, the bar sequence, the
    connectivity flag and the error flag.  The block throws on text that
    is not JSON; on the aggregate stream, on a value that is not an array
    and on an array that holds [null] or a ticker of a tracked symbol whose
    [c] or [P] [Number.parseFloat] throws on; on the per-symbol stream, on
    [null] and on a value one of whose fields [c], [v], [o], [h], [l]
    [Number.parseFloat] throws on.  Every other payload is stored, whatever
    its fields hold: the aggregate handler stores the snapshot of the last
    ticker of each tracked symbol of the batch, and the per-symbol handler
    appends one bar (a field that is missing or is not a number reads as
    [NaN]). *)
Theorem C9_discarded_payload_changes_nothing
    (parseFloat : option json -> completion number)
    (now : Z) (aggregate : parsed) (tracker : Tracker.State)
    (now' : Z) (single : parsed) (chart : Chart.State)
    (batch : list json) (ticker : json) :
  Tracker.discarded parseFloat aggregate = true ->
  Chart.discarded parseFloat single = true ->
  Tracker.discarded parseFloat (Parsed (JArr batch)) = false ->
  Chart.discarded parseFloat (Parsed ticker) = false ->
  Tracker.ws_onmessage parseFloat Tracker.mounted now aggregate tracker = tracker
  /\ Chart.ws_onmessage parseFloat now' single chart = chart
  /\ (forall sym p,
        TrackerExt.latest parseFloat Tracker.mounted now sym batch = Some p ->
        Tracker.prices
          (Tracker.ws_onmessage parseFloat Tracker.mounted now (Parsed (JArr batch)) tracker)
        !! sym = Some p)
  /\ (exists point,
        Chart.newDataPoint parseFloat now' ticker = Normal point
        /\ Chart.chartData (Chart.ws_onmessage parseFloat now' (Parsed ticker) chart)
           = Chart.slice_last (Chart.maxPoints (Chart.timeframe chart) - 1)
               (Chart.chartData chart) ++ [point]).
Proof.
  intros Ha Hs Hbatch Hticker. repeat split.
  - apply TrackerProps.aggregate_discarded, Ha.
  - apply ChartProps.single_discarded, Hs.
  - intros sym p Hlatest.
    rewrite (TrackerExtProps.ws_onmessage_lookup parseFloat) by exact Hbatch.
    rewrite Hlatest. reflexivity.
  - destruct (ChartProps.newDataPoint_not_discarded parseFloat now' ticker Hticker)
      as [point Hpoint].
    exists point. split; [exact Hpoint|].
    rewrite (ChartProps.ws_onmessage_append parseFloat now' ticker point chart Hpoint).
    reflexivity.
Qed.

Lemma C9_witness :
  Tracker.ws_onmessage Examples.parseFloat Tracker.mounted 7 MoreExamples.garbled_batch
    Tracker.initial
  = Tracker.initial
  /\ Chart.ws_onmessage Examples.parseFloat 7 MoreExamples.garbled_ticker Chart.initial
     = Chart.initial
  /\ (forall sym p,
        TrackerExt.latest Examples.parseFloat Tracker.mounted 7 sym MoreExamples.bare_batch
        = Some p ->
        Tracker.prices
          (Tracker.ws_onmessage Examples.parseFloat Tracker.mounted 7
             (Parsed (JArr MoreExamples.bare_batch)) Tracker.initial)
        !! sym = Some p)
  /\ (exists point,
        Chart.newDataPoint Examples.parseFloat 7 (JObj []) = Normal point
        /\ Chart.chartData
             (Chart.ws_onmessage Examples.parseFloat 7 (Parsed (JObj [])) Chart.initial)
           = Chart.slice_last (Chart.maxPoints (Chart.timeframe Chart.initial) - 1)
               (Chart.chartData Chart.initial) ++ [point]).
Proof.
  apply (C9_discarded_payload_changes_nothing Examples.parseFloat).
  - reflexivity.
  - reflexivity.
  - reflexivity.
  - reflexivity.
Defined.

End PayloadProps.
